(** * Multidimensional Poverty Index: a shallow embedding of [MPI.py] and
    [MPI_contributions.py], and the properties of [calculate_mpi].

    Conventions of the embedding.
    - Python floats are read as exact rationals ([Qc], canonical fractions),
      extended with [NaN], the value pandas gives to the mean of an empty
      Series.  Rounding and overflow of binary64 are not represented, so the
      statements about numbers say which expression of the code a value is
      (a quotient, a product, a sum taken in the order of the code) or
      compare values by order; none rests on an identity of exact arithmetic
      that rounding breaks.  Where rounding decides a claim, the lines in
      question are transcribed a second time over the kernel's binary64
      floats (module [Binary64]).
    - A pandas [DataFrame] is its list of column labels and its list of
      rows; a row maps a column label to the value of its cell.  A boolean
      cell is the number 1 (True) or 0 (False), as pandas arithmetic reads it.
    - A table read from a file has a cell in every row for each of its
      columns; reading a cell goes through the total lookup [!!!].
    - The [dimensions] dictionary is the list of its items in insertion
      order, which is the order Python iterates it in; its keys are pairwise
      distinct, as the keys of a Python dictionary are, and the statements
      that depend on it say so ([NoDup]).  Weight dictionaries are finite
      maps; their items are iterated in the order of [map_to_list], which
      stands for the insertion order of Python, and no statement depends on
      which order it is.
    - [sort_values] uses a sort that is not stable; the frames it returns
      are modelled with equal keys left in their order.
    - Exceptions are values of [result]; the files read and written are a
      finite map from paths to tables. *)

From Stdlib Require Import QArith Qcanon.
From Stdlib Require Qcabs PrimFloat Uint63.
From stdpp Require Import gmap strings list fin_maps numbers.

Local Open Scope Qc_scope.

(** ** Exceptions *)

Inductive value_error :=
  | Missing_columns (missing : gset string)
  | Domain_weight_mismatch (domain : string) (domain_total indicator_total : Qc)
  | Domain_has_no_indicators (domain : string)
  | No_indicators_defined
  | Domain_weights_sum (total : Qc)
  | Missing_weights (missing : gset string)
  | Scores_not_one_column
  | Contribution_calculation_error.

Inductive exn :=
  | ValueError (why : value_error)
  | KeyError (key : string)
  | NameError (name : string)
  | FileNotFoundError (path : string).

Inductive result (A : Type) :=
  | Ok (a : A)
  | Raise (e : exn).
Arguments Ok {A} a.
Arguments Raise {A} e.

#[global] Instance result_ret : MRet result := λ A a, Ok a.
#[global] Instance result_bind : MBind result := λ A B f m,
  match m with
  | Ok a => f a
  | Raise e => Raise e
  end.

Definition is_Ok {A} (m : result A) : Prop :=
  match m with Ok _ => True | Raise _ => False end.

Definition is_ValueError {A} (m : result A) : Prop :=
  match m with Raise (ValueError _) => True | _ => False end.

(** ** Numbers: Python and numpy arithmetic *)

Module Numpy.

Inductive number :=
  | NaN
  | Num (q : Qc).

Definition of_nat (n : nat) : Qc := Qc_of_Z (Z.of_nat n).

Definition of_bool (b : bool) : Qc := if b then 1 else 0.

Definition add (a b : number) : number :=
  match a, b with
  | Num x, Num y => Num (x + y)
  | _, _ => NaN
  end.

Definition mul (a b : number) : number :=
  match a, b with
  | Num x, Num y => Num (x * y)
  | _, _ => NaN
  end.

Definition div (a b : number) : number :=
  match a, b with
  | Num x, Num y => Num (x / y)
  | _, _ => NaN
  end.

(** [a > 0] and [a == 0]: both are False on NaN. *)
Definition gt0 (a : number) : bool :=
  match a with
  | Num x => bool_decide (0 < x)
  | NaN => false
  end.

Definition eq0 (a : number) : bool :=
  match a with
  | Num x => bool_decide (x = 0)
  | NaN => false
  end.

(** The builtin [sum]: a left fold that starts from 0. *)
Definition sum (l : list Qc) : Qc := foldl Qcplus 0 l.

Definition default_rtol : Qc := Q2Qc (1 # 100000).
Definition default_atol : Qc := Q2Qc (1 # 100000000).

(** [np.isclose(a, b, rtol, atol)]: |a - b| <= atol + rtol * |b|. *)
Definition isclose (a b rtol atol : Qc) : bool :=
  bool_decide (Qcabs.Qcabs (a - b) ≤ atol + rtol * Qcabs.Qcabs b).

Definition isclose_number (a b : number) (rtol atol : Qc) : bool :=
  match a, b with
  | Num x, Num y => isclose x y rtol atol
  | _, _ => false
  end.

End Numpy.
Export Numpy.

(** ** Tables: the part of pandas the program uses *)

Module Pandas.

Record DataFrame := {
  columns : list string;
  rows : list (gmap string Qc)
}.

#[global] Instance Qc_inhabited : Inhabited Qc := populate 0.

Definition empty_frame : DataFrame := {| columns := []; rows := [] |}.

(** [df[c]] for a label [c] of [df.columns]. *)
Definition series (df : DataFrame) (c : string) : list Qc :=
  (λ r : gmap string Qc, r !!! c) <$> rows df.

(** [df[c]] for any label: a KeyError when [c] is not a column. *)
Definition getitem (df : DataFrame) (c : string) : result (list Qc) :=
  if bool_decide (c ∈ columns df) then Ok (series df c) else Raise (KeyError c).

(** [df[c] = values]: the column is replaced or appended. *)
Definition setitem (df : DataFrame) (c : string) (values : list Qc) : DataFrame :=
  {| columns := if bool_decide (c ∈ columns df) then columns df
                else columns df ++ [c];
     rows := zip_with (λ (r : gmap string Qc) v, <[c := v]> r) (rows df) values |}.

(** [df.apply(f, axis=1)]. *)
Definition apply_rows (f : gmap string Qc → Qc) (df : DataFrame) : list Qc :=
  f <$> rows df.

(** [df[df[c]]]: the rows whose boolean cell [c] is True. *)
Definition mask (df : DataFrame) (c : string) : DataFrame :=
  {| columns := columns df;
     rows := filter (λ r : gmap string Qc, r !!! c = 1) (rows df) |}.

(** [Series.mean()]: NaN on an empty Series. *)
Definition mean (s : list Qc) : number :=
  match s with
  | [] => NaN
  | _ :: _ => Num (sum s / of_nat (length s))
  end.

(** [sort_values(by, ascending=False)]: descending, NaN last.  The order
    pandas leaves among equal keys is not fixed by the program; here equal
    keys keep their order. *)
Definition desc_before (a b : number) : bool :=
  match a, b with
  | Num x, Num y => bool_decide (y ≤ x)
  | Num _, NaN => true
  | NaN, NaN => true
  | NaN, Num _ => false
  end.

Fixpoint insert_desc {A} (key : A → number) (x : A) (l : list A) : list A :=
  match l with
  | [] => [x]
  | y :: l' =>
      if desc_before (key x) (key y) then x :: l
      else y :: insert_desc key x l'
  end.

Definition sort_values_desc {A} (key : A → number) (l : list A) : list A :=
  foldr (insert_desc key) [] l.

(** The file system seen through [pd.read_csv] and [DataFrame.to_csv]. *)
Definition read_csv (fs : gmap string DataFrame) (path : string) : result DataFrame :=
  match fs !! path with
  | Some df => Ok df
  | None => Raise (FileNotFoundError path)
  end.

Definition to_csv (df : DataFrame) (path : string) (fs : gmap string DataFrame)
  : gmap string DataFrame := <[path := df]> fs.

End Pandas.
Export Pandas.

(** ** MPI.py *)

Module MPI_py.

Definition Deprivation_Score : string := "Deprivation_Score".
Definition Is_Poor : string := "Is_Poor".

(** Truth value of an optional dictionary argument: [None] and the empty
    dictionary are both false. *)
Definition truthy (d : option (gmap string Qc)) : bool :=
  match d with
  | Some m => bool_decide (m ≠ ∅)
  | None => false
  end.

Definition dict_of (d : option (gmap string Qc)) : gmap string Qc := default ∅ d.

(** [d.get(k, 0)] *)
Definition get (d : gmap string Qc) (k : string) : Qc := default 0 (d !! k).

(** [d.values()] *)
Definition values (d : gmap string Qc) : list Qc := (map_to_list d).*2.

(** Line 32: [[ind for d in dimensions.values() for ind in d]]. *)
Definition all_indicators_of (dimensions : list (string * list string)) : list string :=
  concat (dimensions.*2).

Definition tolerance : Qc := Q2Qc (1 # 1000).

(** Lines 33-35. *)
Definition check_columns (df : DataFrame) (all_indicators : list string) : result unit :=
  let missing : gset string := list_to_set all_indicators ∖ list_to_set (columns df) in
  if bool_decide (missing ≠ ∅) then Raise (ValueError (Missing_columns missing))
  else Ok ().

(** Lines 40-45: both dictionaries given. *)
Fixpoint check_alignment (dimensions : list (string * list string))
    (domain_weights indicator_weights : gmap string Qc) : result unit :=
  match dimensions with
  | [] => Ok ()
  | (domain, indicators) :: rest =>
      let domain_total := get domain_weights domain in
      let indicator_total := sum (get indicator_weights <$> indicators) in
      if negb (isclose domain_total indicator_total default_rtol tolerance)
      then Raise (ValueError (Domain_weight_mismatch domain domain_total indicator_total))
      else check_alignment rest domain_weights indicator_weights
  end.

(** Lines 49-56: only domain weights given. *)
Fixpoint spread_domain_weights (dimensions : list (string * list string))
    (domain_weights indicator_weights : gmap string Qc) : result (gmap string Qc) :=
  match dimensions with
  | [] => Ok indicator_weights
  | (domain, indicators) :: rest =>
      let weight := get domain_weights domain in
      if bool_decide (length indicators = 0%nat)
      then Raise (ValueError (Domain_has_no_indicators domain))
      else
        let per_indicator := weight / of_nat (length indicators) in
        spread_domain_weights rest domain_weights
          (foldl (λ acc ind, <[ind := per_indicator]> acc) indicator_weights indicators)
  end.

(** Lines 60-62: only indicator weights given. *)
Definition collect_domain_weights (dimensions : list (string * list string))
    (indicator_weights : gmap string Qc) : gmap string Qc :=
  foldl (λ acc '(domain, indicators),
           <[domain := sum (get indicator_weights <$> indicators)]> acc)
        ∅ dimensions.

(** Lines 66-71: no weights given. *)
Definition equal_weights (dimensions : list (string * list string))
    (all_indicators : list string) : result (gmap string Qc * gmap string Qc) :=
  let total_indicators := length all_indicators in
  if bool_decide (total_indicators = 0%nat)
  then Raise (ValueError No_indicators_defined)
  else
    let indicator_weights : gmap string Qc :=
      foldl (λ acc ind, <[ind := 1 / of_nat total_indicators]> acc) ∅ all_indicators in
    let domain_weights : gmap string Qc :=
      foldl (λ acc '(domain, indicators),
               <[domain := sum ((λ ind, indicator_weights !!! ind) <$> indicators)]> acc)
            ∅ dimensions in
    Ok (domain_weights, indicator_weights).

(** Lines 39-71: the four cases; the result is the pair of dictionaries
    [(domain_weights, indicator_weights)] the rest of the function uses. *)
Definition resolve_weights (dimensions : list (string * list string))
    (all_indicators : list string)
    (domain_weights indicator_weights : option (gmap string Qc))
    : result (gmap string Qc * gmap string Qc) :=
  if truthy domain_weights && truthy indicator_weights then
    _ ← check_alignment dimensions (dict_of domain_weights) (dict_of indicator_weights);
    Ok (dict_of domain_weights, dict_of indicator_weights)
  else if truthy domain_weights then
    iw ← spread_domain_weights dimensions (dict_of domain_weights) ∅;
    Ok (dict_of domain_weights, iw)
  else if truthy indicator_weights then
    Ok (collect_domain_weights dimensions (dict_of indicator_weights),
        dict_of indicator_weights)
  else equal_weights dimensions all_indicators.

(** Lines 74-81: the final checks. *)
Definition final_checks (all_indicators : list string)
    (domain_weights indicator_weights : gmap string Qc) : result unit :=
  _ ← (if bool_decide (domain_weights ≠ ∅) then
         if negb (isclose (sum (values domain_weights)) 1 default_rtol tolerance)
         then Raise (ValueError (Domain_weights_sum (sum (values domain_weights))))
         else Ok ()
       else Ok ());
  if bool_decide (indicator_weights ≠ ∅) then
    let missing_indicators : gset string :=
      list_to_set all_indicators ∖ dom indicator_weights in
    if bool_decide (missing_indicators ≠ ∅)
    then Raise (ValueError (Missing_weights missing_indicators))
    else Ok ()
  else Ok ().

(** Lines 31-81 after the table is read. *)
Definition validate (df : DataFrame) (dimensions : list (string * list string))
    (domain_weights indicator_weights : option (gmap string Qc))
    : result (gmap string Qc * gmap string Qc) :=
  let all_indicators := all_indicators_of dimensions in
  _ ← check_columns df all_indicators;
  w ← resolve_weights dimensions all_indicators domain_weights indicator_weights;
  _ ← final_checks all_indicators w.1 w.2;
  Ok w.

(** Line 85: the lambda applied to each row. *)
Definition deprivation_score (all_indicators : list string)
    (indicator_weights : gmap string Qc) (row : gmap string Qc) : Qc :=
  sum ((λ ind, row !!! ind * indicator_weights !!! ind) <$> all_indicators).

(** Line 84, the assignment.  [df[all_indicators]] has one column for each
    listing of a label.  With a label listed twice, [row[ind]] is the pair of
    the two cells, the lambda returns a Series instead of a number, and
    [apply] yields no single column of scores: pandas refuses the assignment
    to [df['Deprivation_Score']] with a ValueError. *)
Definition check_scores_one_column (all_indicators : list string) : result unit :=
  if bool_decide (NoDup all_indicators) then Ok ()
  else Raise (ValueError Scores_not_one_column).

Record mpi_stats := { H : number; A : number; MPI : number }.

(** Lines 84-93, for labels listed once, where line 84 assigns the column
    of scores; [calculate_mpi] comes here after [check_scores_one_column]. *)
Definition core (df : DataFrame) (all_indicators : list string)
    (indicator_weights : gmap string Qc) (poverty_threshold : Qc)
    : DataFrame * mpi_stats :=
  let df1 := setitem df Deprivation_Score
               (apply_rows (deprivation_score all_indicators indicator_weights) df) in
  let df2 := setitem df1 Is_Poor
               ((λ s, of_bool (bool_decide (poverty_threshold ≤ s)))
                  <$> series df1 Deprivation_Score) in
  let H := mean (series df2 Is_Poor) in
  let A := if gt0 H then mean (series (mask df2 Is_Poor) Deprivation_Score)
           else Num 0 in
  let MPI := mul H A in
  (df2, {| H := H; A := A; MPI := MPI |}).

(** Lines 99-105. *)
Definition get_deprivation_proportions (df : DataFrame) (indicators : list string)
    : list (string * number) :=
  sort_values_desc snd ((λ ind, (ind, mean (series df ind))) <$> indicators).

Record contribution_row := {
  Indicator : string;
  Weight : Qc;
  Contribution : number;
  Prevalence_Among_Poor : number;
  Contribution_Pct : number
}.

(** Lines 107-125.  [MPI] is the variable of the enclosing function.  A
    frame built from no rows has no column to sort by. *)
Definition get_contribution_analysis (MPI : number) (df : DataFrame)
    (indicator_weights : gmap string Qc) (H : number)
    : result (list contribution_row) :=
  let poor_df := if gt0 H then mask df Is_Poor else empty_frame in
  contribution_data ← mapM (λ '(ind, weight),
      ind_prevalence ← (if gt0 H then s ← getitem poor_df ind; Ok (mean s)
                        else Ok (Num 0));
      let contribution := mul (mul H (Num weight)) ind_prevalence in
      Ok (ind, weight, contribution, ind_prevalence))
    (map_to_list indicator_weights);
  let contrib_df :=
    (λ '(ind, weight, contribution, ind_prevalence),
       {| Indicator := ind; Weight := weight; Contribution := contribution;
          Prevalence_Among_Poor := ind_prevalence;
          Contribution_Pct :=
            if gt0 MPI then mul (div contribution MPI) (Num (Q2Qc 100))
            else Num 0 |}) <$> contribution_data in
  match contrib_df with
  | [] => Raise (KeyError "Contribution")
  | _ :: _ => Ok (sort_values_desc Contribution contrib_df)
  end.

Record output := {
  data : DataFrame;
  stats : mpi_stats;
  deprivation_analysis : list (string * number);
  contribution_analysis : list contribution_row;
  weights : list (string * Qc)
}.

Section with_os.
(** [os.path.splitext(p)[0]] *)
Variable path_root : string → string.

(** [output_path or default]: [None] and the empty string are false. *)
Definition or_default (output_path : option string) (fallback : string) : string :=
  match output_path with
  | Some p => if bool_decide (p = "") then fallback else p
  | None => fallback
  end.

(** Lines 5-147.  The second component is the file system the call
    leaves behind. *)
Definition calculate_mpi (fs : gmap string DataFrame) (data_path : string)
    (dimensions : list (string * list string))
    (domain_weights indicator_weights : option (gmap string Qc))
    (poverty_threshold : Qc) (output_path : option string)
    : result output * gmap string DataFrame :=
  match read_csv fs data_path with
  | Raise e => (Raise e, fs)
  | Ok df =>
    let all_indicators := all_indicators_of dimensions in
    match validate df dimensions domain_weights indicator_weights with
    | Raise e => (Raise e, fs)
    | Ok (domain_weights, indicator_weights) =>
      match check_scores_one_column all_indicators with
      | Raise e => (Raise e, fs)
      | Ok _ =>
        let '(df, st) := core df all_indicators indicator_weights poverty_threshold in
        let output_path :=
          or_default output_path (path_root data_path +:+ "_scored.csv") in
        let fs := to_csv df output_path fs in
        let deprivation_df := get_deprivation_proportions df all_indicators in
        match get_contribution_analysis (MPI st) df indicator_weights (H st) with
        | Raise e => (Raise e, fs)
        | Ok contribution_df =>
          let output_path :=
            or_default (Some output_path)
              (path_root data_path +:+ "_full_analysis.csv") in
          let fs := to_csv df output_path fs in
          (Ok {| data := df; stats := st;
                 deprivation_analysis := deprivation_df;
                 contribution_analysis := contribution_df;
                 weights := map_to_list indicator_weights |}, fs)
        end
      end
    end
  end.
End with_os.

End MPI_py.

(** ** MPI_contributions.py

    The file holds a second [calculate_mpi].  Its body consists of two
    nested analysis functions, a call of each, a [to_csv] and the return;
    where [MPI.py] reads the table, resolves the weights and computes the
    scores, it has the comments of lines 13 and 42 only. *)

Module MPI_contributions_py.
Import MPI_py.

(** Lines 16-18. *)
Definition calculate_deprivation_proportions (df : DataFrame) (indicators : list string)
    : gmap string number :=
  foldl (λ acc ind, <[ind := mean (series df ind)]> acc) ∅ indicators.

(** Lines 29-33: the loop over [indicator_weights.items()], carrying
    [contributions] and [total_mpi]. *)
Fixpoint contributions_loop (poor_df : DataFrame) (H : number)
    (items : list (string * Qc)) (contributions : gmap string number)
    (total_mpi : number) : result (gmap string number * number) :=
  match items with
  | [] => Ok (contributions, total_mpi)
  | (ind, weight) :: rest =>
      s ← getitem poor_df ind;
      let ind_prevalence := mean s in
      let contribution := mul (mul H (Num weight)) ind_prevalence in
      contributions_loop poor_df H rest
        (<[ind := contribution]> contributions) (add total_mpi contribution)
  end.

(** Lines 20-39. *)
Definition calculate_indicator_contributions (df : DataFrame)
    (indicator_weights : gmap string Qc) (H : number)
    : result (gmap string number) :=
  if eq0 H then Ok ((λ _, Num 0) <$> indicator_weights)
  else
    let poor_df := mask df Is_Poor in
    '(contributions, total_mpi) ←
      contributions_loop poor_df H (map_to_list indicator_weights) ∅ (Num 0);
    s ← getitem poor_df Deprivation_Score;
    if negb (isclose_number total_mpi (mul H (mean s)) default_rtol default_atol)
    then Raise (ValueError Contribution_calculation_error)
    else Ok contributions.

Record output := {
  data : DataFrame;
  H : number;
  A : number;
  MPI : number;
  deprivation_proportions : gmap string number;
  indicator_contributions : gmap string number;
  indicator_weights : gmap string Qc
}.

(** Lines 5-60.  Line 45 is the first statement after the two nested
    definitions.  It reads [df], which is no parameter, is bound nowhere in
    the body and is no global of the module: evaluating the argument raises
    a NameError.  Every call ends there, whatever its arguments are, before
    a file is read or written, and lines 46-60 are never reached. *)
Definition calculate_mpi (path_root : string → string)
    (fs : gmap string DataFrame) (data_path : string)
    (dimensions : list (string * list string))
    (domain_weights indicator_weights : option (gmap string Qc))
    (poverty_threshold : Qc) (output_path : option string)
    : result output * gmap string DataFrame :=
  (Raise (NameError "df"), fs).

End MPI_contributions_py.

(** ** Lines 64-71 of [MPI.py] in binary64

    The equal weights once more, over the kernel's IEEE 754 binary64 floats:
    [1/total_indicators] is one correctly rounded division and the builtin
    [sum] adds from 0, left to right, rounding after every addition. *)

Module Binary64.

Definition of_nat (n : nat) : PrimFloat.float := PrimFloat.of_uint63 (Uint63.of_Z (Z.of_nat n)).

#[global] Instance float_inhabited : Inhabited PrimFloat.float := populate (of_nat 0).

(** The builtin [sum]. *)
Definition sum (l : list PrimFloat.float) : PrimFloat.float := foldl PrimFloat.add (of_nat 0) l.

(** Lines 66-71. *)
Definition equal_weights (dimensions : list (string * list string))
    (all_indicators : list string) : result (gmap string PrimFloat.float * gmap string PrimFloat.float) :=
  let total_indicators := length all_indicators in
  if bool_decide (total_indicators = 0%nat)
  then Raise (ValueError No_indicators_defined)
  else
    let indicator_weights : gmap string PrimFloat.float :=
      foldl (λ acc ind, <[ind := PrimFloat.div (of_nat 1) (of_nat total_indicators)]> acc)
            ∅ all_indicators in
    let domain_weights : gmap string PrimFloat.float :=
      foldl (λ acc '(domain, indicators),
               <[domain := sum ((λ ind, indicator_weights !!! ind) <$> indicators)]> acc)
            ∅ dimensions in
    Ok (domain_weights, indicator_weights).

End Binary64.

Import MPI_py.

(** ** Reading the results, and sample inputs *)

Section reading.
Context (all_indicators : list string) (indicator_weights : gmap string Qc)
        (poverty_threshold : Qc).

(** An observation is poor when its score reaches the threshold. *)
Definition poor (row : gmap string Qc) : Prop :=
  poverty_threshold ≤ deprivation_score all_indicators indicator_weights row.

(** The row of the scored table that stems from [row]. *)
Definition scored (row : gmap string Qc) : gmap string Qc :=
  <[Is_Poor := of_bool (bool_decide (poor row))]>
    (<[Deprivation_Score := deprivation_score all_indicators indicator_weights row]> row).
End reading.

#[global] Instance poor_dec all_indicators indicator_weights poverty_threshold row :
  Decision (poor all_indicators indicator_weights poverty_threshold row).
Proof. unfold poor. apply _. Defined.

Module Sample.
Definition row (a b : Qc) : gmap string Qc := <["a" := a]> (<["b" := b]> ∅).

(** Three observations of two indicators. *)
Definition table : DataFrame :=
  {| columns := ["a"; "b"]; rows := [row 1 1; row 0 0; row 1 0] |}.

Definition files : gmap string DataFrame := {["data.csv" := table]}.

Definition dimensions : list (string * list string) :=
  [("health", ["a"]); ("education", ["b"])].

Definition third : Qc := Q2Qc (1 # 3).

Definition path_root (p : string) : string := "data".

Definition run : result output * gmap string DataFrame :=
  calculate_mpi path_root files "data.csv" dimensions None None third None.
End Sample.

Section input_validity.
Context (df : DataFrame) (dimensions : list (string * list string))
        (domain_weights indicator_weights : option (gmap string Qc)).

Let all_indicators := all_indicators_of dimensions.
Let given_dw := dict_of domain_weights.
Let given_iw := dict_of indicator_weights.

(** The weights the function works with once the four cases are through. *)
Definition resolved (dw iw : gmap string Qc) : Prop :=
  resolve_weights dimensions all_indicators domain_weights indicator_weights
  = Ok (dw, iw).

(** The inputs [calculate_mpi] rejects with a ValueError: the six checks of
    lines 33-81, each as the code evaluates it, and the assignment of line
    84. *)
Definition invalid_input : Prop :=
  (∃ ind, ind ∈ all_indicators ∧ ind ∉ columns df)
  ∨ (truthy domain_weights ∧ truthy indicator_weights ∧
     ∃ domain indicators, (domain, indicators) ∈ dimensions ∧
       isclose (get given_dw domain) (sum (get given_iw <$> indicators))
         default_rtol tolerance = false)
  ∨ (truthy domain_weights ∧ ¬ truthy indicator_weights ∧
     ∃ domain, (domain, []) ∈ dimensions)
  ∨ (¬ truthy domain_weights ∧ ¬ truthy indicator_weights ∧ all_indicators = [])
  ∨ (∃ dw iw, resolved dw iw ∧ dw ≠ ∅ ∧
       isclose (sum (values dw)) 1 default_rtol tolerance = false)
  ∨ (∃ dw iw, resolved dw iw ∧ ∃ ind, ind ∈ all_indicators ∧ iw !! ind = None)
  ∨ ¬ NoDup all_indicators.

(** The four grounds for rejection as the specification words them, with
    a tolerance of 0.001. *)
Definition described_invalid_input : Prop :=
  (∃ ind, ind ∈ all_indicators ∧ ind ∉ columns df)
  ∨ (truthy domain_weights ∧ truthy indicator_weights ∧
     ∃ domain indicators, (domain, indicators) ∈ dimensions ∧
       tolerance < Qcabs.Qcabs (get given_dw domain - sum (get given_iw <$> indicators)))
  ∨ (truthy domain_weights ∧ tolerance < Qcabs.Qcabs (sum (values given_dw) - 1))
  ∨ (∃ dw iw, resolved dw iw ∧ tolerance < Qcabs.Qcabs (sum (values dw) - 1))
  ∨ (∃ dw iw, resolved dw iw ∧ ∃ ind, ind ∈ all_indicators ∧ iw !! ind = None).
End input_validity.

(** The sum of a list of numbers, accumulated from 0 as [total_mpi] is. *)
Definition total (l : list number) : number := foldl add (Num 0) l.

(** The row [get_contribution_analysis] builds for one item of the weights. *)
Definition contribution_entry (MPI H : number) (poor_df : DataFrame)
    (item : string * Qc) : contribution_row :=
  let ind_prevalence := if gt0 H then mean (series poor_df item.1) else Num 0 in
  let contribution := mul (mul H (Num item.2)) ind_prevalence in
  {| Indicator := item.1; Weight := item.2; Contribution := contribution;
     Prevalence_Among_Poor := ind_prevalence;
     Contribution_Pct :=
       if gt0 MPI then mul (div contribution MPI) (Num (Q2Qc 100)) else Num 0 |}.

Module Sample_rejected.
(** Only domain weights are given, they sum to 1, and the second domain
    lists no indicator. *)
Definition table : DataFrame :=
  {| columns := ["a"]; rows := [({["a" := 1]} : gmap string Qc)] |}.

Definition files : gmap string DataFrame := {["data.csv" := table]}.

Definition dimensions : list (string * list string) :=
  [("health", ["a"]); ("education", [])].

Definition domain_weights : option (gmap string Qc) := Some {["health" := 1]}.

Definition run : result output * gmap string DataFrame :=
  calculate_mpi Sample.path_root files "data.csv" dimensions domain_weights None
    Sample.third None.
End Sample_rejected.

Module Sample_tolerated.
(** Both dictionaries are given and the weight of the only domain exceeds
    the weight of its indicator by 0.001005. *)
Definition dimensions : list (string * list string) := [("health", ["a"])].

Definition domain_weights : option (gmap string Qc) :=
  Some {["health" := Q2Qc (1001005 # 1000000)]}.

Definition indicator_weights : option (gmap string Qc) := Some {["a" := 1]}.

Definition run : result output * gmap string DataFrame :=
  calculate_mpi Sample.path_root Sample_rejected.files "data.csv" dimensions
    domain_weights indicator_weights Sample.third None.
End Sample_tolerated.

Module Sample_elsewhere.
(** The table of [Sample] under another name, next to another file. *)
Definition files : gmap string DataFrame :=
  {["survey.csv" := Sample.table; "data.csv" := Sample_rejected.table]}.

Definition path_root (p : string) : string := "survey".
End Sample_elsewhere.

Module Sample_none_poor.
(** Two observations without any deprivation. *)
Definition table : DataFrame :=
  {| columns := ["a"; "b"]; rows := [Sample.row 0 0; Sample.row 0 0] |}.

Definition files : gmap string DataFrame := {["data.csv" := table]}.
End Sample_none_poor.

Module Sample_shared.
(** One indicator listed by two domains. *)
Definition dimensions : list (string * list string) :=
  [("health", ["a"]); ("education", ["a"])].

Definition run : result output * gmap string DataFrame :=
  calculate_mpi Sample.path_root Sample_rejected.files "data.csv" dimensions
    None None Sample.third None.
End Sample_shared.

(** The share of the poor observations of a scored table that are deprived
    in an indicator. *)
Definition prevalence_among_poor (scored_df : DataFrame) (ind : string) : number :=
  mean (series (mask scored_df Is_Poor) ind).

(** The contribution the loops compute for one item of the weights. *)
Definition contribution_of (H : number) (scored_df : DataFrame)
    (item : string * Qc) : number :=
  mul (mul H (Num item.2)) (prevalence_among_poor scored_df item.1).

Module Sample_extra_weight.
(** Weights are given for [a], the only listed indicator, and for the
    column [b], which [dimensions] does not list. *)
Definition table : DataFrame :=
  {| columns := ["a"; "b"]; rows := [Sample.row 1 1] |}.

Definition files : gmap string DataFrame := {["data.csv" := table]}.

Definition dimensions : list (string * list string) := [("health", ["a"])].

Definition indicator_weights : option (gmap string Qc) :=
  Some {["a" := 1; "b" := Q2Qc (1 # 2)]}.

Definition run : result output * gmap string DataFrame :=
  calculate_mpi Sample.path_root files "data.csv" dimensions None indicator_weights
    Sample.third None.
End Sample_extra_weight.

Module Sample_no_indicators.
(** No domain is listed, and a weight is given for a domain: no indicator
    is listed or weighted, every score is 0, and no observation is poor. *)
Definition dimensions : list (string * list string) := [].

Definition domain_weights : option (gmap string Qc) := Some {["health" := 1]}.

Definition run : result output * gmap string DataFrame :=
  calculate_mpi Sample.path_root Sample.files "data.csv" dimensions domain_weights None
    Sample.third None.
End Sample_no_indicators.

Module Sample_ten.
(** Ten indicators in two domains, of three and of seven. *)
Definition dimensions : list (string * list string) :=
  [("health", ["a"; "b"; "c"]); ("education", ["d"; "e"; "f"; "g"; "h"; "i"; "j"])].
End Sample_ten.

(** A list in the order [sort_values(..., ascending=False)] leaves: every
    element stands before all later elements with a key that is not greater,
    NaN keys last. *)
Fixpoint sorted_desc {A} (key : A → number) (l : list A) : Prop :=
  match l with
  | [] => True
  | x :: l' => (∀ y, y ∈ l' → desc_before (key x) (key y) = true) ∧ sorted_desc key l'
  end.

Module Sample_missing_column.
(** A weight is given for [c], which is neither listed in [dimensions] nor
    a column of the table; the one observation is poor. *)
Definition table : DataFrame :=
  {| columns := ["a"]; rows := [({["a" := 1]} : gmap string Qc)] |}.

Definition files : gmap string DataFrame := {["data.csv" := table]}.

Definition dimensions : list (string * list string) := [("health", ["a"])].

Definition indicator_weights : option (gmap string Qc) :=
  Some {["a" := 1; "c" := Q2Qc (1 # 2)]}.
End Sample_missing_column.

(** * Properties *)

Section sum_facts.
Implicit Types (l k : list Qc) (x y : Qc).

Lemma foldl_Qcplus_start x l : foldl Qcplus x l = x + sum l.
Proof.
  unfold sum. revert x.
  induction l as [|y l IH]; intros x; simpl.
  - by rewrite Qcplus_0_r.
  - rewrite (IH (x + y)), (IH (0 + y)). ring.
Qed.

Lemma sum_nil : sum [] = 0.
Proof. done. Qed.

Lemma sum_cons x l : sum (x :: l) = x + sum l.
Proof. unfold sum at 1. simpl. rewrite foldl_Qcplus_start. ring. Qed.

Lemma of_nat_0 : of_nat 0 = 0.
Proof. apply Z2Qc_inj_0. Qed.

Lemma of_nat_S n : of_nat (S n) = of_nat n + 1.
Proof.
  unfold of_nat.
  by rewrite Nat2Z.inj_succ, <-Z.add_1_r, Z2Qc_inj_add, Z2Qc_inj_1.
Qed.

Lemma sum_fmap_const {A} (c : Qc) (l : list A) :
  sum ((λ _, c) <$> l) = of_nat (length l) * c.
Proof.
  induction l as [|a l IH].
  - rewrite fmap_nil, sum_nil. cbn [length]. rewrite of_nat_0. ring.
  - rewrite fmap_cons, sum_cons, IH. cbn [length]. rewrite of_nat_S. ring.
Qed.

Lemma sum_of_bool {A} (P : A → Prop) `{!∀ a, Decision (P a)} (l : list A) :
  sum ((λ a, of_bool (bool_decide (P a))) <$> l) = of_nat (length (filter P l)).
Proof.
  induction l as [|a l IH].
  - rewrite fmap_nil, sum_nil, filter_nil. cbn [length]. by rewrite of_nat_0.
  - rewrite fmap_cons, sum_cons, IH, filter_cons.
    case_bool_decide; cbn [of_bool].
    + rewrite decide_True by done. cbn [length]. rewrite of_nat_S. ring.
    + rewrite decide_False by done. ring.
Qed.

Lemma of_nat_pos n : (0 < n)%nat → 0 < of_nat n.
Proof.
  intros Hn. unfold of_nat. rewrite <-Z2Qc_inj_0.
  apply (proj1 (Z2Qc_inj_lt 0 (Z.of_nat n))). lia.
Qed.

Lemma of_nat_neq_0 n : (0 < n)%nat → of_nat n ≠ 0.
Proof.
  intros Hn Heq. apply of_nat_pos in Hn. rewrite Heq in Hn.
  by apply Qclt_not_eq in Hn.
Qed.
End sum_facts.

Section core_facts.
Context (df : DataFrame) (all_indicators : list string)
        (indicator_weights : gmap string Qc) (poverty_threshold : Qc).

Abbreviation score := (deprivation_score all_indicators indicator_weights).
Abbreviation is_poor := (poor all_indicators indicator_weights poverty_threshold).
Abbreviation scored_row := (scored all_indicators indicator_weights poverty_threshold).
Abbreviation out := (core df all_indicators indicator_weights poverty_threshold).

Lemma Qc_1_neq_0 : (1 : Qc) ≠ 0.
Proof. intros Heq. by apply (f_equal (λ x, this x)) in Heq. Qed.

Lemma scored_Is_Poor r : scored_row r !!! Is_Poor = of_bool (bool_decide (is_poor r)).
Proof. unfold scored. by rewrite lookup_total_insert_eq. Qed.

Lemma scored_Deprivation_Score r : scored_row r !!! Deprivation_Score = score r.
Proof.
  unfold scored.
  rewrite lookup_total_insert_ne by done. by rewrite lookup_total_insert_eq.
Qed.

Lemma scored_other r c :
  c ≠ Deprivation_Score → c ≠ Is_Poor → scored_row r !!! c = r !!! c.
Proof.
  intros ??. unfold scored. by rewrite !lookup_total_insert_ne.
Qed.

Lemma setitem_rows (d : DataFrame) c (f : gmap string Qc → Qc) :
  rows (setitem d c (f <$> rows d)) = (λ r, <[c := f r]> r) <$> rows d.
Proof.
  unfold setitem; cbn [rows].
  by rewrite zip_with_fmap_r, zip_with_diag.
Qed.

Lemma core_rows : rows out.1 = scored_row <$> rows df.
Proof.
  unfold core, apply_rows; cbn [fst].
  unfold series at 1. rewrite <-list_fmap_compose.
  rewrite setitem_rows, setitem_rows, <-list_fmap_compose.
  apply list_fmap_ext. intros _ r _. simpl.
  unfold scored, poor. by rewrite lookup_total_insert_eq.
Qed.

Lemma core_columns c : c ∈ columns df → c ∈ columns out.1.
Proof.
  intros Hc. unfold core, setitem; cbn [fst columns].
  repeat destruct (bool_decide _); set_solver.
Qed.

Lemma filter_scored (l : list (gmap string Qc)) :
  filter (λ r : gmap string Qc, r !!! Is_Poor = 1) (scored_row <$> l)
  = scored_row <$> filter is_poor l.
Proof.
  induction l as [|r l IH]; [done|].
  rewrite fmap_cons, !filter_cons, IH, scored_Is_Poor.
  destruct (decide (is_poor r)) as [Hp|Hp].
  - rewrite bool_decide_true by done. by rewrite decide_True.
  - rewrite bool_decide_false by done. rewrite decide_False; [done|].
    simpl. intros Heq. by destruct Qc_1_neq_0.
Qed.

Lemma core_poor_rows : rows (mask out.1 Is_Poor) = scored_row <$> filter is_poor (rows df).
Proof. unfold mask; cbn [rows]. by rewrite core_rows, filter_scored. Qed.

Lemma core_series_Is_Poor :
  series out.1 Is_Poor = (λ r, of_bool (bool_decide (is_poor r))) <$> rows df.
Proof.
  unfold series. rewrite core_rows, <-list_fmap_compose.
  apply list_fmap_ext. intros _ r _. simpl. apply scored_Is_Poor.
Qed.

Lemma core_poor_scores :
  series (mask out.1 Is_Poor) Deprivation_Score = score <$> filter is_poor (rows df).
Proof.
  unfold series. rewrite core_poor_rows, <-list_fmap_compose.
  apply list_fmap_ext. intros _ r _. simpl. apply scored_Deprivation_Score.
Qed.

Lemma core_H : H out.2 = mean ((λ r, of_bool (bool_decide (is_poor r))) <$> rows df).
Proof. unfold core at 1. cbn [snd H]. f_equal. apply core_series_Is_Poor. Qed.

Lemma core_A :
  A out.2 = if gt0 (H out.2) then mean (series (mask out.1 Is_Poor) Deprivation_Score)
            else Num 0.
Proof. done. Qed.

Lemma core_MPI : MPI out.2 = mul (H out.2) (A out.2).
Proof. done. Qed.
End core_facts.

Lemma or_default_again output_path stem fallback :
  or_default (Some (or_default output_path (stem +:+ "_scored.csv"))) fallback
  = or_default output_path (stem +:+ "_scored.csv").
Proof.
  assert (stem +:+ "_scored.csv" ≠ "") as Hne by (by destruct stem).
  unfold or_default at 1.
  case_bool_decide as Hempty; [|done].
  unfold or_default in Hempty.
  destruct output_path as [p|]; [|done].
  by case_bool_decide.
Qed.

Section calculate_mpi_facts.
Context (path_root : string → string).
Context (fs : gmap string DataFrame) (data_path : string)
        (dimensions : list (string * list string))
        (domain_weights indicator_weights : option (gmap string Qc))
        (poverty_threshold : Qc) (output_path : option string).

Abbreviation run :=
  (calculate_mpi path_root fs data_path dimensions domain_weights indicator_weights
     poverty_threshold output_path).

(** What a normal return of [calculate_mpi] tells about the run. *)
Lemma calculate_mpi_Ok o fs' :
  run = (Ok o, fs') →
  ∃ df dw iw,
    fs !! data_path = Some df ∧
    validate df dimensions domain_weights indicator_weights = Ok (dw, iw) ∧
    data o = (core df (all_indicators_of dimensions) iw poverty_threshold).1 ∧
    stats o = (core df (all_indicators_of dimensions) iw poverty_threshold).2 ∧
    get_contribution_analysis (MPI (stats o)) (data o) iw (H (stats o))
      = Ok (contribution_analysis o) ∧
    weights o = map_to_list iw.
Proof.
  unfold calculate_mpi, read_csv.
  destruct (fs !! data_path) as [df|] eqn:Hfs; [|done].
  destruct (validate _ _ _ _) as [[dw iw]|e] eqn:Hv; [|done].
  destruct (check_scores_one_column _) as [[]|e]; [|done].
  destruct (core _ _ _ _) as [df' st] eqn:Hcore.
  destruct (get_contribution_analysis _ _ _ _) as [c|e] eqn:Hc; [|done].
  intros [= <- _]. exists df, dw, iw. cbn [data stats contribution_analysis weights].
  by rewrite Hcore.
Qed.

Lemma check_scores_one_column_Ok all_indicators :
  check_scores_one_column all_indicators = Ok () ↔ NoDup all_indicators.
Proof. unfold check_scores_one_column. by case_bool_decide. Qed.

(** The run once validation has passed for labels listed once. *)
Lemma calculate_mpi_validated df dw iw :
  fs !! data_path = Some df →
  validate df dimensions domain_weights indicator_weights = Ok (dw, iw) →
  NoDup (all_indicators_of dimensions) →
  let out := core df (all_indicators_of dimensions) iw poverty_threshold in
  let written :=
    <[or_default output_path (path_root data_path +:+ "_scored.csv") := out.1]> fs in
  run
  = match get_contribution_analysis (MPI out.2) out.1 iw (H out.2) with
    | Raise e => (Raise e, written)
    | Ok contribution_df =>
        (Ok {| data := out.1; stats := out.2;
               deprivation_analysis :=
                 get_deprivation_proportions out.1 (all_indicators_of dimensions);
               contribution_analysis := contribution_df;
               weights := map_to_list iw |}, written)
    end.
Proof.
  intros Hfs Hv Hnodup. cbv zeta. unfold calculate_mpi, read_csv.
  rewrite Hfs, Hv, (proj2 (check_scores_one_column_Ok _) Hnodup).
  destruct (core _ _ _ _) as [df' st]. cbn [fst snd].
  destruct (get_contribution_analysis _ _ _ _); [|done].
  rewrite or_default_again. unfold to_csv. by rewrite insert_insert_eq.
Qed.
End calculate_mpi_facts.

Section weights_facts.
Implicit Types (dimensions : list (string * list string))
               (m dw iw : gmap string Qc) (ind domain : string).

Lemma lookup_foldl_insert_const (v : Qc) (l : list string) m k :
  foldl (λ acc ind, <[ind := v]> acc) m l !! k
  = if decide (k ∈ l) then Some v else m !! k.
Proof.
  revert m. induction l as [|x l IH]; intros m.
  - destruct (decide (k ∈ [])) as [Hin|_]; [|done]. by apply elem_of_nil in Hin.
  - cbn [foldl]. rewrite IH.
    destruct (decide (k ∈ l)) as [Hin|Hin], (decide (k ∈ x :: l)) as [Hin'|Hin'];
      try done.
    + destruct Hin'. by right.
    + apply elem_of_cons in Hin' as [->|?]; [|done]. by rewrite lookup_insert_eq.
    + rewrite lookup_insert_ne; [done|]. intros ->. apply Hin'. by left.
Qed.

Lemma elem_of_all_indicators_cons domain (indicators : list string) dimensions ind :
  ind ∈ all_indicators_of ((domain, indicators) :: dimensions)
  ↔ ind ∈ indicators ∨ ind ∈ all_indicators_of dimensions.
Proof. unfold all_indicators_of. simpl. apply elem_of_app. Qed.

Lemma spread_domain_weights_Ok dimensions dw m m' :
  spread_domain_weights dimensions dw m = Ok m' →
  (∀ ind, ind ∈ all_indicators_of dimensions → is_Some (m' !! ind)) ∧
  (∀ ind, is_Some (m !! ind) → is_Some (m' !! ind)) ∧
  (∀ ind, is_Some (m' !! ind) →
          ind ∈ all_indicators_of dimensions ∨ is_Some (m !! ind)).
Proof.
  revert m. induction dimensions as [|[domain indicators] dimensions IH]; intros m; simpl.
  - intros [= ->]. split_and!; [|done|by right].
    intros ind Hin. unfold all_indicators_of in Hin. simpl in Hin. set_solver.
  - case_bool_decide; [done|]. intros Hrest.
    apply IH in Hrest as (Hall & Hmono & Hdom).
    split_and!.
    + intros ind [Hin|Hin]%elem_of_all_indicators_cons; [|by apply Hall].
      apply Hmono. rewrite lookup_foldl_insert_const. by rewrite decide_True.
    + intros ind Hm. apply Hmono. rewrite lookup_foldl_insert_const.
      by destruct (decide _).
    + intros ind [Hin|Hm]%Hdom.
      * left. apply elem_of_all_indicators_cons. by right.
      * rewrite lookup_foldl_insert_const in Hm.
        destruct (decide (ind ∈ indicators)); [|by right].
        left. apply elem_of_all_indicators_cons. by left.
Qed.

Lemma equal_weights_Ok dimensions dw iw :
  equal_weights dimensions (all_indicators_of dimensions) = Ok (dw, iw) →
  all_indicators_of dimensions ≠ [] ∧
  ∀ ind, iw !! ind =
    if decide (ind ∈ all_indicators_of dimensions)
    then Some (1 / of_nat (length (all_indicators_of dimensions))) else None.
Proof.
  unfold equal_weights. case_bool_decide as Hlen; [done|].
  intros [= _ <-]. split.
  - intros Hnil. by rewrite Hnil in Hlen.
  - intros ind. by rewrite lookup_foldl_insert_const, lookup_empty.
Qed.

Lemma truthy_Some (d : option (gmap string Qc)) :
  truthy d = true → dict_of d ≠ ∅.
Proof. destruct d as [m|]; simpl; [|done]. by intros ?%bool_decide_eq_true. Qed.

Lemma resolve_weights_covers dimensions odw oiw dw iw :
  resolve_weights dimensions (all_indicators_of dimensions) odw oiw = Ok (dw, iw) →
  iw ≠ ∅ ∨ ∀ ind, ind ∈ all_indicators_of dimensions → is_Some (iw !! ind).
Proof.
  unfold resolve_weights.
  destruct (truthy odw) eqn:Hdw, (truthy oiw) eqn:Hiw; simpl.
  - destruct (check_alignment _ _ _); [|done]. simpl. intros [= _ <-].
    left. by apply truthy_Some.
  - destruct (spread_domain_weights _ _ _) as [m|] eqn:Hs; [|done]. simpl.
    intros [= _ <-]. right. by apply spread_domain_weights_Ok in Hs as (? & _).
  - intros [= _ <-]. left. by apply truthy_Some.
  - intros (_ & Hiw')%equal_weights_Ok. right. intros ind Hin.
    rewrite Hiw'. by rewrite decide_True.
Qed.

Lemma final_checks_Ok all_indicators dw iw :
  final_checks all_indicators dw iw = Ok () →
  (dw ≠ ∅ → isclose (sum (values dw)) 1 default_rtol tolerance = true) ∧
  (iw ≠ ∅ → ∀ ind, ind ∈ all_indicators → is_Some (iw !! ind)).
Proof.
  unfold final_checks. intros Hchk. split.
  - intros Hne. rewrite (bool_decide_true (dw ≠ ∅)) in Hchk by done.
    by destruct (isclose _ _ _ _).
  - intros Hne ind Hin.
    assert ((if bool_decide (iw ≠ ∅)
             then if bool_decide (list_to_set all_indicators ∖ dom iw ≠@{gset string} ∅)
                  then Raise (ValueError
                                (Missing_weights (list_to_set all_indicators ∖ dom iw)))
                  else Ok ()
             else Ok ()) = Ok ()) as Hiw.
    { destruct (bool_decide (dw ≠ ∅)); [|done].
      by destruct (isclose _ _ _ _). }
    rewrite bool_decide_true in Hiw by done.
    case_bool_decide as Hmiss; [done|].
    apply elem_of_dom. set_solver.
Qed.
End weights_facts.

Section validate_facts.
Context (df : DataFrame) (dimensions : list (string * list string))
        (domain_weights indicator_weights : option (gmap string Qc)).

Lemma check_columns_Ok all_indicators :
  check_columns df all_indicators = Ok () ↔
  ∀ ind, ind ∈ all_indicators → ind ∈ columns df.
Proof.
  unfold check_columns. case_bool_decide as Hmiss; split; try done.
  - intros Hall. destruct Hmiss. set_solver.
  - intros _ ind Hin. destruct (decide (ind ∈ columns df)); [done|].
    exfalso. set_solver.
Qed.

Lemma validate_Ok dw iw :
  validate df dimensions domain_weights indicator_weights = Ok (dw, iw) ↔
  check_columns df (all_indicators_of dimensions) = Ok () ∧
  resolve_weights dimensions (all_indicators_of dimensions)
    domain_weights indicator_weights = Ok (dw, iw) ∧
  final_checks (all_indicators_of dimensions) dw iw = Ok ().
Proof.
  unfold validate.
  destruct (check_columns _ _) as [[]|]; simpl; [|naive_solver].
  destruct (resolve_weights _ _ _ _) as [[dw' iw']|]; simpl; [|naive_solver].
  destruct (final_checks _ _ _) as [[]|] eqn:Hf; simpl.
  - split; [intros [= -> ->]; by rewrite Hf|naive_solver].
  - split; [done|]. intros (_ & [= -> ->] & Hf'). congruence.
Qed.

Lemma validate_columns dw iw ind :
  validate df dimensions domain_weights indicator_weights = Ok (dw, iw) →
  ind ∈ all_indicators_of dimensions → ind ∈ columns df.
Proof. intros (Hc & _)%validate_Ok. by apply check_columns_Ok. Qed.

Lemma validate_covers dw iw ind :
  validate df dimensions domain_weights indicator_weights = Ok (dw, iw) →
  ind ∈ all_indicators_of dimensions → is_Some (iw !! ind).
Proof.
  intros (_ & Hr & Hf)%validate_Ok.
  apply resolve_weights_covers in Hr as [Hne|Hall]; [|by apply Hall].
  apply final_checks_Ok in Hf as (_ & Hf). by apply Hf.
Qed.
End validate_facts.

Lemma mean_cons_inv (s : list Qc) :
  s ≠ [] → mean s = Num (sum s / of_nat (length s)).
Proof. by destruct s. Qed.

Lemma gt0_mean_of_bool {A} (P : A → Prop) `{!∀ a, Decision (P a)} (l : list A) :
  gt0 (mean ((λ a, of_bool (bool_decide (P a))) <$> l)) = true ↔ filter P l ≠ [].
Proof.
  destruct l as [|a l]; [done|].
  rewrite mean_cons_inv by done.
  rewrite sum_of_bool, length_fmap. cbn [gt0].
  rewrite bool_decide_eq_true.
  set (n := length (filter P (a :: l))).
  assert (Hlen : 0 < of_nat (length (a :: l))) by (apply of_nat_pos; simpl; lia).
  split.
  - intros Hpos Hnil. subst n. rewrite Hnil in Hpos. simpl in Hpos.
    rewrite of_nat_0 in Hpos.
    unfold Qcdiv in Hpos. rewrite Qcmult_0_l in Hpos.
    by apply Qclt_not_eq in Hpos.
  - intros Hne.
    assert (0 < of_nat n).
    { apply of_nat_pos. subst n. destruct (filter P (a :: l)); [done|simpl; lia]. }
    unfold Qcdiv. apply Qcmult_pos_pos; [done|].
    by apply Qcinv_pos.
Qed.

(** C1: on every normal return of [calculate_mpi] the returned MPI is the
    product of the returned headcount ratio H and the returned intensity A. *)
Theorem mpi_is_H_times_A path_root fs data_path dimensions domain_weights
    indicator_weights poverty_threshold output_path o fs' :
  calculate_mpi path_root fs data_path dimensions domain_weights indicator_weights
    poverty_threshold output_path = (Ok o, fs') →
  MPI (stats o) = mul (H (stats o)) (A (stats o)).
Proof.
  intros Hrun.
  apply calculate_mpi_Ok in Hrun as (df & dw & iw & _ & _ & _ & -> & _).
  apply core_MPI.
Qed.

Lemma mpi_is_H_times_A_witness :
  ∃ o fs', Sample.run = (Ok o, fs') ∧ MPI (stats o) = mul (H (stats o)) (A (stats o)).
Proof.
  eexists _, _. split.
  - vm_compute. reflexivity.
  - eapply (mpi_is_H_times_A Sample.path_root Sample.files "data.csv"
              Sample.dimensions None None Sample.third None).
    vm_compute. reflexivity.
Defined.

(** C3: on every normal return the headcount ratio H is the number of rows
    of the returned table flagged [Is_Poor], divided by the number of its
    rows, which are the observations of the input table; for a table
    without observations the quotient is undefined and H is NaN. *)
Theorem headcount_ratio path_root fs data_path dimensions domain_weights
    indicator_weights poverty_threshold output_path df o fs' :
  fs !! data_path = Some df →
  calculate_mpi path_root fs data_path dimensions domain_weights indicator_weights
    poverty_threshold output_path = (Ok o, fs') →
  length (rows (data o)) = length (rows df) ∧
  (rows df ≠ [] →
   H (stats o) =
     Num (of_nat (length (filter (λ r : gmap string Qc, r !!! Is_Poor = 1) (rows (data o))))
          / of_nat (length (rows df)))) ∧
  (rows df = [] → H (stats o) = NaN).
Proof.
  intros Hfs Hrun.
  apply calculate_mpi_Ok in Hrun as (df' & dw & iw & Hfs' & _ & -> & -> & _).
  assert (df' = df) as -> by congruence.
  rewrite core_H, core_rows, length_fmap, filter_scored, length_fmap.
  split; [done|]. split.
  - intros Hne. rewrite mean_cons_inv by (by destruct (rows df)).
    by rewrite sum_of_bool, length_fmap.
  - by intros ->.
Qed.

Lemma headcount_ratio_witness :
  ∃ o fs', Sample.run = (Ok o, fs') ∧
    H (stats o) =
      Num (of_nat (length (filter (λ r : gmap string Qc, r !!! Is_Poor = 1) (rows (data o))))
           / of_nat 3).
Proof.
  assert (∃ o fs', Sample.run = (Ok o, fs')) as (o & fs' & Hrun).
  { eexists _, _. vm_compute. reflexivity. }
  exists o, fs'. split; [done|].
  destruct (headcount_ratio Sample.path_root Sample.files "data.csv"
              Sample.dimensions None None Sample.third None Sample.table o fs')
    as (_ & HH & _); [reflexivity|exact Hrun|].
  by apply HH.
Defined.

(** C4: on every normal return with at least one row flagged [Is_Poor], the
    intensity A is the arithmetic mean of the [Deprivation_Score] of exactly
    the flagged rows. *)
Theorem intensity_is_mean_score_of_poor path_root fs data_path dimensions
    domain_weights indicator_weights poverty_threshold output_path o fs' :
  calculate_mpi path_root fs data_path dimensions domain_weights indicator_weights
    poverty_threshold output_path = (Ok o, fs') →
  let poor_rows := filter (λ r : gmap string Qc, r !!! Is_Poor = 1) (rows (data o)) in
  poor_rows ≠ [] →
  A (stats o) =
    Num (sum ((λ r : gmap string Qc, r !!! Deprivation_Score) <$> poor_rows)
         / of_nat (length poor_rows)).
Proof.
  intros Hrun.
  apply calculate_mpi_Ok in Hrun as (df & dw & iw & _ & _ & -> & -> & _).
  intros poor_rows Hne. subst poor_rows.
  rewrite core_rows, filter_scored in Hne |- *.
  rewrite core_A, core_H, (proj2 (gt0_mean_of_bool _ _)).
  2:{ intros Hnil. by rewrite Hnil in Hne. }
  rewrite core_poor_scores, <-list_fmap_compose, length_fmap.
  rewrite mean_cons_inv, length_fmap.
  - do 3 f_equal. apply list_fmap_ext. intros _ r _. simpl.
    by rewrite scored_Deprivation_Score.
  - intros Hnil. apply fmap_nil_inv in Hnil. by rewrite Hnil in Hne.
Qed.

Lemma intensity_is_mean_score_of_poor_witness :
  ∃ o fs',
    Sample.run = (Ok o, fs') ∧
    let poor_rows := filter (λ r : gmap string Qc, r !!! Is_Poor = 1) (rows (data o)) in
    A (stats o) =
      Num (sum ((λ r : gmap string Qc, r !!! Deprivation_Score) <$> poor_rows)
           / of_nat (length poor_rows)).
Proof.
  eexists _, _. split; [vm_compute; reflexivity|].
  apply (intensity_is_mean_score_of_poor Sample.path_root Sample.files "data.csv"
           Sample.dimensions None None Sample.third None _
           (Sample.run.2)).
  - vm_compute. reflexivity.
  - vm_compute. intros Hnil. discriminate Hnil.
Defined.

(** C5: on every normal return, the [Deprivation_Score] of each observation
    is the sum, over the indicators listed in [dimensions], of the
    observation's value of the indicator times the resolved weight of the
    indicator; every listed indicator has a resolved weight. *)
Theorem deprivation_score_is_weighted_sum path_root fs data_path dimensions
    domain_weights indicator_weights poverty_threshold output_path df o fs' :
  fs !! data_path = Some df →
  calculate_mpi path_root fs data_path dimensions domain_weights indicator_weights
    poverty_threshold output_path = (Ok o, fs') →
  ∃ dw iw,
    validate df dimensions domain_weights indicator_weights = Ok (dw, iw) ∧
    weights o = map_to_list iw ∧
    (∀ ind, ind ∈ all_indicators_of dimensions → is_Some (iw !! ind)) ∧
    ∀ (i : nat) (row : gmap string Qc),
      rows df !! i = Some row →
      ∃ row' : gmap string Qc,
        rows (data o) !! i = Some row' ∧
        row' !! Deprivation_Score =
          Some (sum ((λ ind, row !!! ind * iw !!! ind) <$> all_indicators_of dimensions)).
Proof.
  intros Hfs Hrun.
  apply calculate_mpi_Ok in Hrun as (df' & dw & iw & Hfs' & Hv & -> & _ & _ & Hw).
  assert (df' = df) as -> by congruence.
  exists dw, iw. split; [done|]. split; [done|]. split.
  - intros ind Hin. by eapply validate_covers.
  - intros i row Hi. rewrite core_rows, list_lookup_fmap, Hi. simpl.
    eexists. split; [done|].
    unfold scored. rewrite lookup_insert_ne by done. by rewrite lookup_insert_eq.
Qed.

Lemma deprivation_score_is_weighted_sum_witness :
  ∃ o fs' dw iw,
    Sample.run = (Ok o, fs') ∧
    validate Sample.table Sample.dimensions None None = Ok (dw, iw) ∧
    ∃ row' : gmap string Qc,
      rows (data o) !! 2%nat = Some row' ∧
      row' !! Deprivation_Score =
        Some (sum ((λ ind, Sample.row 1 0 !!! ind * iw !!! ind) <$> ["a"; "b"])).
Proof.
  assert (∃ o fs', Sample.run = (Ok o, fs')) as (o & fs' & Hrun).
  { eexists _, _. vm_compute. reflexivity. }
  destruct (deprivation_score_is_weighted_sum Sample.path_root Sample.files "data.csv"
              Sample.dimensions None None Sample.third None Sample.table o fs')
    as (dw & iw & Hv & _ & _ & Hrows); [reflexivity|exact Hrun|].
  exists o, fs', dw, iw. split; [done|]. split; [done|].
  by apply (Hrows 2%nat).
Defined.

(** C6: on every normal return, every row of the returned table is flagged
    poor or not poor, and it is flagged poor exactly when its
    [Deprivation_Score] is greater than or equal to [poverty_threshold]. *)
Theorem poor_iff_score_reaches_threshold path_root fs data_path dimensions
    domain_weights indicator_weights poverty_threshold output_path o fs'
    (row : gmap string Qc) :
  calculate_mpi path_root fs data_path dimensions domain_weights indicator_weights
    poverty_threshold output_path = (Ok o, fs') →
  row ∈ rows (data o) →
  (row !! Is_Poor = Some 1 ∨ row !! Is_Poor = Some 0) ∧
  (row !! Is_Poor = Some 1 ↔ poverty_threshold ≤ row !!! Deprivation_Score).
Proof.
  intros Hrun Hrow.
  apply calculate_mpi_Ok in Hrun as (df & dw & iw & _ & _ & Hdata & _).
  rewrite Hdata, core_rows in Hrow.
  apply list_elem_of_fmap in Hrow as (r & -> & _).
  rewrite scored_Deprivation_Score.
  unfold scored at 1 2 3. rewrite !lookup_insert_eq.
  unfold poor. case_bool_decide; simpl.
  - split; [by left|done].
  - split; [by right|]. split; [|done].
    intros Heq. by simplify_eq.
Qed.

Lemma poor_iff_score_reaches_threshold_witness :
  ∃ o fs' (row : gmap string Qc),
    Sample.run = (Ok o, fs') ∧ row ∈ rows (data o) ∧
    (row !! Is_Poor = Some 1 ↔ Sample.third ≤ row !!! Deprivation_Score).
Proof.
  assert (∃ o fs' (row : gmap string Qc),
            Sample.run = (Ok o, fs') ∧ rows (data o) !! 0%nat = Some row)
    as (o & fs' & row & Hrun & Hrow).
  { eexists _, _, _. vm_compute. split; reflexivity. }
  apply list_elem_of_lookup_2 in Hrow.
  exists o, fs', row. split; [done|]. split; [done|].
  by apply (poor_iff_score_reaches_threshold Sample.path_root Sample.files "data.csv"
              Sample.dimensions None None Sample.third None o fs' row).
Defined.

Section validation_outcome.
Context (df : DataFrame) (dimensions : list (string * list string))
        (domain_weights indicator_weights : option (gmap string Qc)).

Lemma isclose_true a b rtol atol :
  isclose a b rtol atol = true ↔ Qcabs.Qcabs (a - b) ≤ atol + rtol * Qcabs.Qcabs b.
Proof. unfold isclose. apply bool_decide_eq_true. Qed.

Lemma check_alignment_outcome dw iw :
  match check_alignment dimensions dw iw with
  | Ok _ =>
      ∀ domain indicators, (domain, indicators) ∈ dimensions →
        isclose (get dw domain) (sum (get iw <$> indicators)) default_rtol tolerance = true
  | Raise e =>
      (∃ why, e = ValueError why) ∧
      ∃ domain indicators, (domain, indicators) ∈ dimensions ∧
        isclose (get dw domain) (sum (get iw <$> indicators)) default_rtol tolerance = false
  end.
Proof.
  induction dimensions as [|[domain indicators] rest IH]; simpl.
  - intros ?? Hin. by apply elem_of_nil in Hin.
  - destruct (isclose _ _ _ _) eqn:Hclose; simpl.
    + destruct (check_alignment rest dw iw).
      * intros d inds [[= -> ->]|Hin]%elem_of_cons; [done|by apply IH].
      * destruct IH as (Hwhy & d & inds & Hin & Hc). split; [done|].
        exists d, inds. split; [by right|done].
    + split; [by eexists|]. exists domain, indicators. split; [by left|done].
Qed.

Lemma spread_domain_weights_outcome dw m :
  match spread_domain_weights dimensions dw m with
  | Ok _ => ∀ domain, (domain, []) ∉ dimensions
  | Raise e => (∃ why, e = ValueError why) ∧ ∃ domain, (domain, []) ∈ dimensions
  end.
Proof.
  revert m. induction dimensions as [|[domain indicators] rest IH]; intros m; simpl.
  - intros domain Hin. by apply elem_of_nil in Hin.
  - case_bool_decide as Hlen.
    + split; [by eexists|]. exists domain.
      apply nil_length_inv in Hlen as ->. by left.
    + specialize (IH (foldl (λ acc ind, <[ind := get dw domain / of_nat (length indicators)]> acc)
                        m indicators)).
      destruct (spread_domain_weights rest dw _).
      * intros d [[= -> <-]|Hin]%elem_of_cons; [done|by eapply IH].
      * destruct IH as (Hwhy & d & Hin). split; [done|]. exists d. by right.
Qed.
End validation_outcome.

Section validate_outcome.
Context (df : DataFrame) (dimensions : list (string * list string))
        (domain_weights indicator_weights : option (gmap string Qc)).

Abbreviation all_indicators := (all_indicators_of dimensions).

Lemma check_columns_outcome :
  match check_columns df all_indicators with
  | Ok _ => ∀ ind, ind ∈ all_indicators → ind ∈ columns df
  | Raise e => (∃ why, e = ValueError why) ∧ ∃ ind, ind ∈ all_indicators ∧ ind ∉ columns df
  end.
Proof.
  destruct (check_columns df all_indicators) as [[]|e] eqn:Hc.
  - by apply check_columns_Ok.
  - unfold check_columns in Hc. case_bool_decide as Hmiss; [|done].
    injection Hc as <-. split; [by eexists|].
    apply set_choose_L in Hmiss as [ind Hind]. exists ind. set_solver.
Qed.

Lemma equal_weights_outcome :
  match equal_weights dimensions all_indicators with
  | Ok _ => all_indicators ≠ []
  | Raise e => (∃ why, e = ValueError why) ∧ all_indicators = []
  end.
Proof.
  unfold equal_weights. case_bool_decide as Hlen.
  - split; [by eexists|]. by apply nil_length_inv.
  - intros Hnil. by rewrite Hnil in Hlen.
Qed.

Lemma resolve_weights_outcome :
  match resolve_weights dimensions all_indicators domain_weights indicator_weights with
  | Ok _ =>
      ¬ (truthy domain_weights ∧ truthy indicator_weights ∧
         ∃ domain indicators, (domain, indicators) ∈ dimensions ∧
           isclose (get (dict_of domain_weights) domain)
             (sum (get (dict_of indicator_weights) <$> indicators))
             default_rtol tolerance = false) ∧
      ¬ (truthy domain_weights ∧ ¬ truthy indicator_weights ∧
         ∃ domain, (domain, []) ∈ dimensions) ∧
      ¬ (¬ truthy domain_weights ∧ ¬ truthy indicator_weights ∧ all_indicators = [])
  | Raise e =>
      (∃ why, e = ValueError why) ∧
      ((truthy domain_weights ∧ truthy indicator_weights ∧
        ∃ domain indicators, (domain, indicators) ∈ dimensions ∧
          isclose (get (dict_of domain_weights) domain)
            (sum (get (dict_of indicator_weights) <$> indicators))
            default_rtol tolerance = false)
       ∨ (truthy domain_weights ∧ ¬ truthy indicator_weights ∧
          ∃ domain, (domain, []) ∈ dimensions)
       ∨ (¬ truthy domain_weights ∧ ¬ truthy indicator_weights ∧ all_indicators = []))
  end.
Proof.
  unfold resolve_weights.
  destruct (truthy domain_weights) eqn:Hdw, (truthy indicator_weights) eqn:Hiw;
    cbn [andb].
  - pose proof (check_alignment_outcome dimensions
                  (dict_of domain_weights) (dict_of indicator_weights)) as Hc.
    destruct (check_alignment _ _ _) as [[]|e]; simpl.
    + split_and!; [|naive_solver..].
      intros (_ & _ & d & inds & Hin & Hclose). rewrite Hc in Hclose; done.
    + destruct Hc as (Hwhy & Hex). split; [done|]. left. split_and!; [done..|exact Hex].
  - pose proof (spread_domain_weights_outcome dimensions (dict_of domain_weights) ∅) as Hs.
    destruct (spread_domain_weights _ _ _) as [m|e]; simpl.
    + split_and!; [naive_solver| |naive_solver].
      intros (_ & _ & d & Hin). by apply Hs in Hin.
    + destruct Hs as (Hwhy & Hex). split; [done|]. right; left. split_and!; [naive_solver..|exact Hex].
  - split_and!; naive_solver.
  - pose proof equal_weights_outcome as He.
    destruct (equal_weights _ _) as [[dw iw]|e].
    + split_and!; naive_solver.
    + destruct He as (Hwhy & Hnil). split; [done|]. right; right. split_and!; [naive_solver..|exact Hnil].
Qed.

Lemma final_checks_outcome dw iw :
  match final_checks all_indicators dw iw with
  | Ok _ =>
      (dw ≠ ∅ → isclose (sum (values dw)) 1 default_rtol tolerance = true) ∧
      (iw ≠ ∅ → ∀ ind, ind ∈ all_indicators → is_Some (iw !! ind))
  | Raise e =>
      (∃ why, e = ValueError why) ∧
      ((dw ≠ ∅ ∧ isclose (sum (values dw)) 1 default_rtol tolerance = false)
       ∨ ∃ ind, ind ∈ all_indicators ∧ iw !! ind = None)
  end.
Proof.
  destruct (final_checks all_indicators dw iw) as [[]|e] eqn:Hf.
  - by apply final_checks_Ok.
  - unfold final_checks in Hf.
    destruct (bool_decide (dw ≠ ∅)) eqn:Hdw.
    + apply bool_decide_eq_true in Hdw.
      destruct (isclose _ _ _ _) eqn:Hclose; simpl in Hf.
      * case_bool_decide; [|done]. case_bool_decide as Hmiss; [|done].
        injection Hf as <-. split; [by eexists|]. right.
        apply set_choose_L in Hmiss as [ind Hind]. exists ind.
        apply elem_of_difference in Hind as [Hin Hdom].
        split; [set_solver|]. by apply not_elem_of_dom.
      * injection Hf as <-. split; [by eexists|]. by left.
    + simpl in Hf. case_bool_decide; [|done]. case_bool_decide as Hmiss; [|done].
      injection Hf as <-. split; [by eexists|]. right.
      apply set_choose_L in Hmiss as [ind Hind]. exists ind.
      apply elem_of_difference in Hind as [Hin Hdom].
      split; [set_solver|]. by apply not_elem_of_dom.
Qed.
End validate_outcome.

Section rejection.
Context (df : DataFrame) (dimensions : list (string * list string))
        (domain_weights indicator_weights : option (gmap string Qc)).

Lemma validate_outcome :
  match validate df dimensions domain_weights indicator_weights with
  | Ok _ =>
      invalid_input df dimensions domain_weights indicator_weights →
      ¬ NoDup (all_indicators_of dimensions)
  | Raise e =>
      (∃ why, e = ValueError why) ∧
      invalid_input df dimensions domain_weights indicator_weights
  end.
Proof.
  unfold validate, invalid_input, resolved.
  pose proof (check_columns_outcome df dimensions) as Hc.
  destruct (check_columns _ _) as [[]|e]; cbn [mbind result_bind];
    [|destruct Hc as (? & ?); by auto].
  pose proof (resolve_weights_outcome dimensions domain_weights indicator_weights) as Hr.
  destruct (resolve_weights _ _ _ _) as [[dw iw]|e] eqn:Hres; cbn [mbind result_bind].
  2:{ destruct Hr as (Hwhy & [Hr|[Hr|Hr]]); (split; [done|]).
      - right; left. done.
      - right; right; left. done.
      - do 3 right. left. done. }
  destruct Hr as (Hr1 & Hr2 & Hr3).
  pose proof (final_checks_outcome dimensions dw iw) as Hf. cbn [fst snd].
  destruct (final_checks _ _ _) as [[]|e]; cbn [mbind result_bind].
  - destruct Hf as (Hf1 & Hf2).
    intros [Hbad|[Hbad|[Hbad|[Hbad|[Hbad|[Hbad|Hbad]]]]]]; [exfalso..|exact Hbad].
    + destruct Hbad as (ind & Hin & Hcol). by apply Hcol, Hc.
    + by apply Hr1.
    + by apply Hr2.
    + by apply Hr3.
    + destruct Hbad as (dw' & iw' & [= <- <-] & Hne & Hclose).
      rewrite Hf1 in Hclose; done.
    + destruct Hbad as (dw' & iw' & [= <- <-] & ind & Hin & Hnone).
      apply resolve_weights_covers in Hres as [Hne|Hall].
      * destruct (Hf2 Hne ind Hin) as [? ?]. congruence.
      * destruct (Hall ind Hin) as [? ?]. congruence.
  - destruct Hf as (Hwhy & [(Hne & Hclose)|Hmiss]); (split; [done|]).
    + do 4 right. left. by exists dw, iw.
    + do 5 right. left. by exists dw, iw.
Qed.
End rejection.

Section mapM_result.
Context {A B : Type} (f : A → result B).

Lemma mapM_result_Ok (g : A → B) (l : list A) :
  (∀ x, x ∈ l → f x = Ok (g x)) → mapM f l = Ok (g <$> l).
Proof.
  induction l as [|x l IH]; intros Hf; [done|].
  cbn [mapM]. rewrite (Hf x) by (by left). cbn [mbind result_bind].
  rewrite IH; [done|]. intros y Hy. apply Hf. by right.
Qed.

Lemma mapM_result_Raise (l : list A) e :
  mapM f l = Raise e → ∃ x, x ∈ l ∧ f x = Raise e.
Proof.
  induction l as [|x l IH]; [done|].
  cbn [mapM]. destruct (f x) as [y|e'] eqn:Hfx; cbn [mbind result_bind].
  - destruct (mapM f l) as [k|e'']; cbn [mbind result_bind]; [done|].
    intros [= ->]. destruct IH as (z & Hz & Hfz); [done|].
    exists z. split; [by right|done].
  - intros [= ->]. exists x. split; [by left|done].
Qed.

Lemma mapM_result_inv (l : list A) (k : list B) :
  mapM f l = Ok k → Forall2 (λ x y, f x = Ok y) l k.
Proof.
  revert k. induction l as [|x l IH]; intros k.
  - intros [= <-]. constructor.
  - cbn [mapM]. destruct (f x) as [y|e'] eqn:Hfx; cbn [mbind result_bind]; [|done].
    destruct (mapM f l) as [k'|e'']; cbn [mbind result_bind]; [|done].
    intros [= <-]. constructor; [done|]. by apply IH.
Qed.
End mapM_result.

Section sorting.
Context {A : Type} (key : A → number).

Lemma insert_desc_Permutation x (l : list A) : insert_desc key x l ≡ₚ x :: l.
Proof.
  induction l as [|y l IH]; [done|].
  cbn [insert_desc]. destruct (desc_before _ _); [done|].
  rewrite IH. apply Permutation_swap.
Qed.

Lemma sort_values_desc_Permutation (l : list A) : sort_values_desc key l ≡ₚ l.
Proof.
  induction l as [|x l IH]; [done|].
  unfold sort_values_desc in *. cbn [foldr].
  by rewrite insert_desc_Permutation, IH.
Qed.
End sorting.

Section contribution_analysis_facts.
Context (MPI H : number) (df : DataFrame) (iw : gmap string Qc).

Abbreviation poor_frame := (if gt0 H then mask df Is_Poor else empty_frame).

Lemma get_contribution_analysis_Raise e :
  get_contribution_analysis MPI df iw H = Raise e → ∃ k, e = KeyError k.
Proof.
  unfold get_contribution_analysis.
  destruct (mapM _ _) as [l|e'] eqn:Hm; cbn [mbind result_bind].
  - destruct (_ <$> l); [|done]. intros [= <-]. by eexists.
  - intros [= ->]. apply mapM_result_Raise in Hm as ([ind w] & _ & Hf).
    destruct (gt0 H); [|done].
    unfold getitem in Hf. case_bool_decide; [done|].
    cbn [mbind result_bind] in Hf. injection Hf as <-. by eexists.
Qed.

Lemma get_contribution_analysis_Ok :
  iw ≠ ∅ →
  (gt0 H = true → ∀ ind, is_Some (iw !! ind) → ind ∈ columns df) →
  get_contribution_analysis MPI df iw H
  = Ok (sort_values_desc Contribution
          (contribution_entry MPI H (mask df Is_Poor) <$> map_to_list iw)).
Proof.
  intros Hne Hcols. unfold get_contribution_analysis.
  rewrite (mapM_result_Ok _
    (λ item, (item.1, item.2,
              Contribution (contribution_entry MPI H (mask df Is_Poor) item),
              Prevalence_Among_Poor (contribution_entry MPI H (mask df Is_Poor) item)))).
  - cbn [mbind result_bind]. rewrite <-list_fmap_compose.
    destruct (map_to_list iw) as [|item l] eqn:Hl.
    { by apply map_to_list_empty_iff in Hl. }
    rewrite <-Hl. clear Hl.
    assert (∀ (l : list (string * Qc)) g g',
              (∀ x, g x = g' x) → l ≠ [] →
              match g <$> l with
              | [] => Raise (KeyError "Contribution")
              | _ :: _ => Ok (sort_values_desc Contribution (g <$> l))
              end = Ok (sort_values_desc Contribution (g' <$> l))) as Haux.
    { intros l' g g' Hext Hl'. rewrite (list_fmap_ext g g' l') by (intros; apply Hext).
      by destruct l'. }
    apply Haux; [by intros [??]|]. intros Hnil.
    by apply map_to_list_empty_iff in Hnil.
  - intros [ind w] Hin. apply elem_of_map_to_list in Hin.
    unfold contribution_entry; cbn [fst snd Contribution Prevalence_Among_Poor].
    destruct (gt0 H) eqn:Hgt; [|done].
    unfold getitem. rewrite bool_decide_true; [done|].
    unfold mask; cbn [columns]. by apply Hcols.
Qed.

Lemma get_contribution_analysis_inv l :
  get_contribution_analysis MPI df iw H = Ok l →
  l = sort_values_desc Contribution
        (contribution_entry MPI H (mask df Is_Poor) <$> map_to_list iw).
Proof.
  intros Hl. rewrite get_contribution_analysis_Ok in Hl; [congruence| |].
  - intros ->. by vm_compute in Hl.
  - intros Hgt ind [w Hw].
    unfold get_contribution_analysis in Hl.
    destruct (mapM _ _) as [k|] eqn:Hm; [|done].
    apply mapM_result_inv in Hm.
    apply elem_of_map_to_list, list_elem_of_lookup in Hw as [i Hi].
    destruct (Forall2_lookup_l _ _ _ _ _ Hm Hi) as (y & _ & Hy).
    cbn beta iota in Hy. rewrite Hgt in Hy. unfold getitem in Hy.
    case_bool_decide; [done|]. done.
Qed.
End contribution_analysis_facts.

Section rejection_by_calculate_mpi.
Context (path_root : string → string).
Context (fs : gmap string DataFrame) (data_path : string) (df : DataFrame)
        (dimensions : list (string * list string))
        (domain_weights indicator_weights : option (gmap string Qc))
        (poverty_threshold : Qc) (output_path : option string).
Hypothesis Hfs : fs !! data_path = Some df.

Abbreviation the_run :=
  (calculate_mpi path_root fs data_path dimensions domain_weights indicator_weights
     poverty_threshold output_path).

Lemma calculate_mpi_invalid :
  invalid_input df dimensions domain_weights indicator_weights →
  is_ValueError the_run.1 ∧ the_run.2 = fs.
Proof.
  intros Hbad. unfold calculate_mpi, read_csv. rewrite Hfs.
  pose proof (validate_outcome df dimensions domain_weights indicator_weights) as Hv.
  destruct (validate _ _ _ _) as [[dw iw]|e].
  - unfold check_scores_one_column. by rewrite bool_decide_false by (by apply Hv).
  - by destruct Hv as ((why & ->) & _).
Qed.

Lemma calculate_mpi_valid :
  ¬ invalid_input df dimensions domain_weights indicator_weights →
  ¬ is_ValueError the_run.1 ∧
  ∃ dw iw,
    validate df dimensions domain_weights indicator_weights = Ok (dw, iw) ∧
    the_run.2 !! or_default output_path (path_root data_path +:+ "_scored.csv")
    = Some (core df (all_indicators_of dimensions) iw poverty_threshold).1.
Proof.
  intros Hgood.
  assert (NoDup (all_indicators_of dimensions)) as Hnodup.
  { destruct (decide (NoDup (all_indicators_of dimensions))) as [|Hdup]; [done|].
    destruct Hgood. unfold invalid_input. do 6 right. exact Hdup. }
  pose proof (validate_outcome df dimensions domain_weights indicator_weights) as Hv.
  destruct (validate _ _ _ _) as [[dw iw]|e] eqn:Hvalid; [|by destruct Hv].
  rewrite (calculate_mpi_validated _ _ _ _ _ _ _ _ df dw iw Hfs Hvalid Hnodup).
  destruct (get_contribution_analysis _ _ _ _) as [c|e] eqn:Hc; cbn [fst snd].
  - split; [by intros []|]. exists dw, iw. split; [done|]. by rewrite lookup_insert_eq.
  - apply get_contribution_analysis_Raise in Hc as [k ->].
    split; [by intros []|]. exists dw, iw. split; [done|]. by rewrite lookup_insert_eq.
Qed.

Lemma calculate_mpi_ValueError :
  is_ValueError the_run.1 →
  invalid_input df dimensions domain_weights indicator_weights.
Proof.
  intros Herr.
  pose proof (validate_outcome df dimensions domain_weights indicator_weights) as Hv.
  destruct (validate _ _ _ _) as [[dw iw]|e] eqn:Hvalid; [|by destruct Hv].
  destruct (decide (NoDup (all_indicators_of dimensions))) as [Hnodup|Hdup].
  - exfalso. revert Herr.
    rewrite (calculate_mpi_validated _ _ _ _ _ _ _ _ df dw iw Hfs Hvalid Hnodup).
    destruct (get_contribution_analysis _ _ _ _) as [c|e] eqn:Hc; cbn [fst]; [done|].
    by apply get_contribution_analysis_Raise in Hc as [k ->].
  - unfold invalid_input. do 6 right. exact Hdup.
Qed.
End rejection_by_calculate_mpi.

(** C7, as the code has it: given the table at [data_path], [calculate_mpi]
    fails with a ValueError exactly on the invalid inputs, which are: an
    indicator of [dimensions] that is no column of the table; both
    dictionaries given and a domain whose weight [np.isclose] with
    [atol=0.001] does not find close to the sum of its indicators' weights;
    only domain weights given and a domain without indicators; no weights
    given and no indicator at all; resolved domain weights, not empty, whose
    sum [np.isclose] with [atol=0.001] does not find close to 1; an indicator
    without resolved weight; an indicator listed twice, for which the
    assignment of the scores fails.  On these inputs nothing is written, so
    no score was stored.  On every other input the scored table is computed
    and written, and no ValueError is raised. *)
Theorem ValueError_iff_invalid_input path_root fs data_path df dimensions
    domain_weights indicator_weights poverty_threshold output_path :
  fs !! data_path = Some df →
  let run := calculate_mpi path_root fs data_path dimensions domain_weights
               indicator_weights poverty_threshold output_path in
  (is_ValueError run.1 ↔ invalid_input df dimensions domain_weights indicator_weights) ∧
  (invalid_input df dimensions domain_weights indicator_weights → run.2 = fs) ∧
  (¬ invalid_input df dimensions domain_weights indicator_weights →
   ∃ dw iw,
     validate df dimensions domain_weights indicator_weights = Ok (dw, iw) ∧
     run.2 !! or_default output_path (path_root data_path +:+ "_scored.csv")
     = Some (core df (all_indicators_of dimensions) iw poverty_threshold).1).
Proof.
  intros Hfs run. subst run. split_and!.
  - split.
    + by apply calculate_mpi_ValueError.
    + intros Hbad. by eapply calculate_mpi_invalid in Hbad as [? _].
  - intros Hbad. by eapply calculate_mpi_invalid in Hbad as [_ ?].
  - intros Hgood. by eapply calculate_mpi_valid in Hgood as [_ ?].
Qed.

Lemma ValueError_iff_invalid_input_witness :
  is_ValueError Sample_rejected.run.1 ↔
  invalid_input Sample_rejected.table Sample_rejected.dimensions
    Sample_rejected.domain_weights None.
Proof.
  apply (ValueError_iff_invalid_input Sample.path_root Sample_rejected.files "data.csv"
           Sample_rejected.table Sample_rejected.dimensions
           Sample_rejected.domain_weights None Sample.third None).
  reflexivity.
Defined.

(** C7 fails as described.  With only domain weights given, summing to 1,
    and a domain without indicators, [calculate_mpi] raises a ValueError
    although none of the four described grounds holds; a domain weight
    0.001005 above the weight of its indicator, which the description
    rejects, is accepted; and with one indicator listed by two domains
    [calculate_mpi] raises a ValueError although none of the four described
    grounds holds. *)
Lemma described_rejection_counterexample :
  (is_ValueError Sample_rejected.run.1 ∧
   ¬ described_invalid_input Sample_rejected.table Sample_rejected.dimensions
       Sample_rejected.domain_weights None) ∧
  (described_invalid_input Sample_rejected.table Sample_tolerated.dimensions
     Sample_tolerated.domain_weights Sample_tolerated.indicator_weights ∧
   is_Ok Sample_tolerated.run.1) ∧
  (is_ValueError Sample_shared.run.1 ∧
   ¬ described_invalid_input Sample_rejected.table Sample_shared.dimensions None None).
Proof.
  split; [split|split; split].
  - by vm_compute.
  - unfold described_invalid_input, resolved.
    intros [Hbad|[Hbad|[Hbad|[Hbad|Hbad]]]].
    + destruct Hbad as (ind & Hin & Hcol). apply Hcol.
      vm_compute in Hin. vm_compute. done.
    + by destruct Hbad as (_ & ? & _).
    + destruct Hbad as (_ & Hlt). revert Hlt.
      apply (bool_decide_eq_false_1 (tolerance <
        Qcabs.Qcabs (sum (values (dict_of Sample_rejected.domain_weights)) - 1))).
      by vm_compute.
    + destruct Hbad as (dw & iw & Hres & _). by vm_compute in Hres.
    + destruct Hbad as (dw & iw & Hres & _). by vm_compute in Hres.
  - right; left. split_and!; [by vm_compute..|].
    exists "health", ["a"]. split; [by left|].
    apply (bool_decide_eq_true_1 (tolerance <
      Qcabs.Qcabs (get (dict_of Sample_tolerated.domain_weights) "health"
                   - sum (get (dict_of Sample_tolerated.indicator_weights) <$> ["a"])))).
    by vm_compute.
  - by vm_compute.
  - by vm_compute.
  - assert (resolve_weights Sample_shared.dimensions
              (all_indicators_of Sample_shared.dimensions) None None
            = Ok ({["health" := Q2Qc (1 # 2); "education" := Q2Qc (1 # 2)]},
                  {["a" := Q2Qc (1 # 2)]})) as Hr.
    { vm_compute. reflexivity. }
    unfold described_invalid_input, resolved.
    intros [Hbad|[Hbad|[Hbad|[Hbad|Hbad]]]].
    + destruct Hbad as (ind & Hin & Hcol). apply Hcol.
      vm_compute in Hin. vm_compute.
      apply elem_of_cons in Hin as [->|Hin]; [by left|].
      apply elem_of_cons in Hin as [->|Hin]; [by left|].
      by apply elem_of_nil in Hin.
    + by destruct Hbad as (? & _).
    + by destruct Hbad as (? & _).
    + destruct Hbad as (dw & iw & Hres & Hlt).
      rewrite Hr in Hres. injection Hres as <- <-. revert Hlt.
      match goal with |- ?P → False => apply (bool_decide_eq_false_1 P) end.
      vm_compute. reflexivity.
    + destruct Hbad as (dw & iw & Hres & ind & Hin & Hnone).
      rewrite Hr in Hres. injection Hres as <- <-.
      vm_compute in Hin.
      apply elem_of_cons in Hin as [->|Hin];
        [|apply elem_of_cons in Hin as [->|Hin]; [|by apply elem_of_nil in Hin]];
        vm_compute in Hnone; discriminate Hnone.
Qed.

(** C8: the outcome of [calculate_mpi], that is the exception raised or the
    returned scores, classifications, H, A and MPI with the analyses, is
    fixed by the table, [dimensions], the two weight dictionaries and the
    threshold: two runs that agree on these have equal outcomes, whatever
    the paths, the other files and the path handling are.  This holds for
    the function of either file; the outcome of the function of
    [MPI_contributions.py] is its NameError on every input. *)
Theorem outcome_fixed_by_inputs path_root1 path_root2
    (fs1 fs2 : gmap string DataFrame) data_path1 data_path2 output_path1 output_path2
    df dimensions domain_weights indicator_weights poverty_threshold :
  fs1 !! data_path1 = Some df →
  fs2 !! data_path2 = Some df →
  (calculate_mpi path_root1 fs1 data_path1 dimensions domain_weights indicator_weights
     poverty_threshold output_path1).1
  = (calculate_mpi path_root2 fs2 data_path2 dimensions domain_weights indicator_weights
       poverty_threshold output_path2).1
  ∧ (MPI_contributions_py.calculate_mpi path_root1 fs1 data_path1 dimensions
       domain_weights indicator_weights poverty_threshold output_path1).1
    = (MPI_contributions_py.calculate_mpi path_root2 fs2 data_path2 dimensions
         domain_weights indicator_weights poverty_threshold output_path2).1.
Proof.
  intros Hfs1 Hfs2. split.
  - unfold calculate_mpi, read_csv. rewrite Hfs1, Hfs2.
    destruct (validate _ _ _ _) as [[dw iw]|e]; [|done].
    destruct (check_scores_one_column _) as [[]|e]; [|done].
    destruct (core _ _ _ _) as [df' st].
    by destruct (get_contribution_analysis _ _ _ _).
  - reflexivity.
Qed.

Lemma outcome_fixed_by_inputs_witness :
  (calculate_mpi Sample.path_root Sample.files "data.csv" Sample.dimensions
     None None Sample.third None).1
  = (calculate_mpi Sample_elsewhere.path_root Sample_elsewhere.files "survey.csv"
       Sample.dimensions None None Sample.third (Some "out.csv")).1.
Proof.
  apply (outcome_fixed_by_inputs Sample.path_root Sample_elsewhere.path_root
           Sample.files Sample_elsewhere.files "data.csv" "survey.csv"
           None (Some "out.csv") Sample.table); reflexivity.
Defined.

Lemma filter_none {A} (P : A → Prop) `{!∀ a, Decision (P a)} (l : list A) :
  (∀ x, x ∈ l → ¬ P x) → filter P l = [].
Proof.
  induction l as [|x l IH]; intros Hnone; [done|].
  rewrite filter_cons, decide_False by (apply Hnone; by left).
  apply IH. intros y Hy. apply Hnone. by right.
Qed.

Section headcount_zero.
Context (df : DataFrame) (all_indicators : list string)
        (indicator_weights : gmap string Qc) (poverty_threshold : Qc).

Abbreviation st := (core df all_indicators indicator_weights poverty_threshold).2.

(** H is 0 exactly on a table that has observations, none of them poor. *)
Lemma H_zero_iff :
  H st = Num 0 ↔
  rows df ≠ [] ∧
  ∀ row, row ∈ rows df → ¬ poor all_indicators indicator_weights poverty_threshold row.
Proof.
  rewrite core_H. split.
  - intros HH. destruct (rows df) as [|r l] eqn:Hrows; [done|].
    split; [done|]. intros row Hrow Hpoor.
    assert (gt0 (mean ((λ r, of_bool (bool_decide
              (poor all_indicators indicator_weights poverty_threshold r)))
              <$> r :: l)) = true) as Hgt.
    { apply gt0_mean_of_bool. intros Hnil.
      assert (row ∈ filter (poor all_indicators indicator_weights poverty_threshold)
                (r :: l)) as Hin by (by apply list_elem_of_filter).
      rewrite Hnil in Hin. by apply elem_of_nil in Hin. }
    rewrite HH in Hgt. by vm_compute in Hgt.
  - intros (Hne & Hnone). rewrite mean_cons_inv by (by destruct (rows df)).
    rewrite sum_of_bool, length_fmap.
    replace (filter _ (rows df)) with (@nil (gmap string Qc)).
    + cbn [length]. rewrite of_nat_0. f_equal. unfold Qcdiv. ring.
    + symmetry. by apply filter_none.
Qed.

Lemma H_zero_A : H st = Num 0 → A st = Num 0.
Proof. intros HH. rewrite core_A, HH. done. Qed.

Lemma H_zero_MPI : H st = Num 0 → MPI st = Num 0.
Proof.
  intros HH. rewrite core_MPI, H_zero_A, HH by done.
  cbn [mul]. f_equal; ring.
Qed.
End headcount_zero.

Section zero_contributions.
Import MPI_contributions_py.

Lemma calculate_indicator_contributions_zero df (iw : gmap string Qc) :
  calculate_indicator_contributions df iw (Num 0) = Ok ((λ _, Num 0) <$> iw).
Proof.
  unfold calculate_indicator_contributions, eq0.
  by rewrite bool_decide_true.
Qed.

Lemma contribution_entry_zero MPI poor_df item :
  Contribution (contribution_entry MPI (Num 0) poor_df item) = Num 0.
Proof.
  unfold contribution_entry; cbn [Contribution].
  replace (gt0 (Num 0)) with false by (symmetry; by apply bool_decide_eq_false).
  cbn [mul]. f_equal; ring.
Qed.
End zero_contributions.

(** C9 at an input on which it fails.  No domain is listed and a weight 1
    is given for a domain, so that no indicator is listed or weighted.
    Validation passes with no indicator weights, every score is 0, no
    observation is poor, and H = 0, A = 0 and MPI = 0 are computed and the
    scored table is written.  [get_contribution_analysis] then builds a frame
    from no rows and [calculate_mpi] raises the KeyError of the missing
    column [Contribution] instead of returning, whereas on the same table,
    weights and H [calculate_indicator_contributions] returns the empty
    dictionary. *)
Theorem zero_headcount_without_weights :
  validate Sample.table Sample_no_indicators.dimensions
    Sample_no_indicators.domain_weights None
  = Ok (dict_of Sample_no_indicators.domain_weights, ∅) ∧
  let out := core Sample.table (all_indicators_of Sample_no_indicators.dimensions)
               ∅ Sample.third in
  H out.2 = Num 0 ∧ A out.2 = Num 0 ∧ MPI out.2 = Num 0 ∧
  Sample_no_indicators.run
  = (Raise (KeyError "Contribution"), <["data_scored.csv" := out.1]> Sample.files) ∧
  MPI_contributions_py.calculate_indicator_contributions out.1 ∅ (H out.2) = Ok ∅.
Proof.
  assert (validate Sample.table Sample_no_indicators.dimensions
            Sample_no_indicators.domain_weights None
          = Ok (dict_of Sample_no_indicators.domain_weights, ∅)) as Hv.
  { vm_compute. reflexivity. }
  split; [exact Hv|]. cbv zeta.
  assert (H (core Sample.table (all_indicators_of Sample_no_indicators.dimensions)
               ∅ Sample.third).2 = Num 0) as HH.
  { vm_compute. f_equal. by apply Qc_is_canon. }
  split; [exact HH|]. split; [by apply H_zero_A|]. split; [by apply H_zero_MPI|].
  split.
  - unfold Sample_no_indicators.run.
    rewrite (calculate_mpi_validated Sample.path_root Sample.files "data.csv"
               Sample_no_indicators.dimensions Sample_no_indicators.domain_weights
               None Sample.third None Sample.table _ ∅ eq_refl Hv); [|constructor].
    reflexivity.
  - rewrite HH, calculate_indicator_contributions_zero. by rewrite fmap_empty.
Qed.

Section dictionaries.
(** Filling a dictionary item by item, with keys that do not repeat. *)
Lemma lookup_foldl_insert_items {V} (f : list string → V)
    (l : list (string * list string)) (m : gmap string V) k v :
  NoDup l.*1 → (k, v) ∈ l →
  foldl (λ acc '(domain, indicators), <[domain := f indicators]> acc) m l !! k
  = Some (f v).
Proof.
  revert m. induction l as [|[d inds] l IH]; intros m Hnodup Hin.
  - by apply elem_of_nil in Hin.
  - cbn [foldl]. rewrite fmap_cons in Hnodup. cbn [fst] in Hnodup.
    pose proof (NoDup_cons_1_1 _ _ Hnodup) as Hd.
    apply NoDup_cons_1_2 in Hnodup.
    apply elem_of_cons in Hin as [[= -> ->]|Hin]; [|by apply IH].
    clear IH. revert m. induction l as [|[d' inds'] l IH]; intros m.
    + cbn [foldl]. by rewrite lookup_insert_eq.
    + cbn [foldl]. rewrite fmap_cons in Hnodup, Hd. cbn [fst] in Hnodup, Hd.
      apply NoDup_cons_1_2 in Hnodup.
      assert (d ≠ d') as Hne by (intros ->; apply Hd; by left).
      rewrite insert_insert_ne by done. apply IH; [done|].
      intros Hin. apply Hd. by right.
Qed.

Lemma dom_foldl_insert_items {V} (f : list string → V)
    (l : list (string * list string)) (m : gmap string V) k :
  is_Some (foldl (λ acc '(domain, indicators), <[domain := f indicators]> acc) m l !! k)
  ↔ k ∈ l.*1 ∨ is_Some (m !! k).
Proof.
  revert m. induction l as [|[d inds] l IH]; intros m.
  - cbn [foldl]. rewrite fmap_nil. set_solver.
  - cbn [foldl]. rewrite IH, fmap_cons, elem_of_cons. cbn [fst].
    destruct (decide (k = d)) as [->|Hne].
    + rewrite lookup_insert_eq. naive_solver.
    + rewrite lookup_insert_ne by done. naive_solver.
Qed.
End dictionaries.

Lemma isclose_refl x rtol atol :
  0 ≤ rtol → 0 ≤ atol → isclose x x rtol atol = true.
Proof.
  intros Hr Ha. apply isclose_true. replace (x - x) with (Q2Qc 0) by ring.
  rewrite Qcabs.Qcabs_pos by done.
  apply Qcplus_nonneg_nonneg; [done|].
  apply Qcmult_nonneg_nonneg; [done|]. apply Qcabs.Qcabs_nonneg.
Qed.




Section contributions_loop_facts.
Import MPI_contributions_py.
Context (poor_df : DataFrame) (H : number).

Abbreviation entry := (λ item : string * Qc,
  mul (mul H (Num item.2)) (mean (series poor_df item.1))).

Lemma contributions_loop_Ok items contributions total_mpi :
  (∀ item, item ∈ items → item.1 ∈ columns poor_df) →
  contributions_loop poor_df H items contributions total_mpi
  = Ok (foldl (λ acc item, <[item.1 := entry item]> acc) contributions items,
        foldl add total_mpi (entry <$> items)).
Proof.
  revert contributions total_mpi.
  induction items as [|[ind w] items IH]; intros c t Hcols; [done|].
  cbn [contributions_loop]. unfold getitem.
  rewrite bool_decide_true by (apply (Hcols (ind, w)); by left).
  cbn [mbind result_bind]. rewrite IH; [done|].
  intros item Hitem. apply Hcols. by right.
Qed.

Lemma contributions_loop_columns items contributions total_mpi r :
  contributions_loop poor_df H items contributions total_mpi = Ok r →
  ∀ item, item ∈ items → item.1 ∈ columns poor_df.
Proof.
  revert contributions total_mpi.
  induction items as [|[ind w] items IH]; intros c t Hloop item Hitem.
  - by apply elem_of_nil in Hitem.
  - cbn [contributions_loop] in Hloop. unfold getitem in Hloop.
    case_bool_decide as Hcol; [|done]. cbn [mbind result_bind] in Hloop.
    apply elem_of_cons in Hitem as [->|Hitem]; [done|]. by eapply IH.
Qed.

Lemma lookup_foldl_insert_entries {V} (f : string * Qc → V)
    (items : list (string * Qc)) (m : gmap string V) k v :
  foldl (λ acc item, <[item.1 := f item]> acc) m items !! k = Some v →
  (∃ item, item ∈ items ∧ item.1 = k ∧ v = f item) ∨ m !! k = Some v.
Proof.
  revert m. induction items as [|item items IH]; intros m; cbn [foldl]; [by right|].
  intros [(item' & Hin & Hk & Hv)|Hm]%IH.
  - left. exists item'. split; [by right|done].
  - destruct (decide (item.1 = k)) as [Hk|Hk].
    + rewrite Hk, lookup_insert_eq in Hm. injection Hm as <-.
      left. exists item. split; [by left|done].
    + rewrite lookup_insert_ne in Hm by done. by right.
Qed.

Lemma dom_foldl_insert_entries {V} (f : string * Qc → V)
    (items : list (string * Qc)) (m : gmap string V) k :
  is_Some (foldl (λ acc item, <[item.1 := f item]> acc) m items !! k)
  ↔ k ∈ items.*1 ∨ is_Some (m !! k).
Proof.
  revert m. induction items as [|item items IH]; intros m.
  - cbn [foldl]. rewrite fmap_nil. set_solver.
  - cbn [foldl]. rewrite IH, fmap_cons, elem_of_cons.
    destruct (decide (k = item.1)) as [->|Hne].
    + rewrite lookup_insert_eq. naive_solver.
    + rewrite lookup_insert_ne by done. naive_solver.
Qed.

Lemma map_to_list_foldl_insert_entries {V} (f : string * Qc → V)
    (items : list (string * Qc)) :
  NoDup items.*1 →
  map_to_list (foldl (λ acc item, <[item.1 := f item]> acc) (∅ : gmap string V) items)
  ≡ₚ (λ item, (item.1, f item)) <$> items.
Proof.
  intros Hnodup.
  assert (((λ item, (item.1, f item)) <$> items).*1 = items.*1) as Hfst.
  { rewrite <-list_fmap_compose. by apply list_fmap_ext. }
  rewrite <-(map_to_list_to_map (M := gmap string)
               ((λ item, (item.1, f item)) <$> items)) by (by rewrite Hfst).
  f_equiv. apply map_eq. intros k.
  destruct (foldl _ _ _ !! k) as [v|] eqn:Hk.
  - apply lookup_foldl_insert_entries in Hk as [(item & Hin & <- & ->)|Hk]; [|done].
    symmetry. apply elem_of_list_to_map_1; [by rewrite Hfst|].
    apply list_elem_of_fmap. by exists item.
  - symmetry. apply not_elem_of_list_to_map_1. rewrite Hfst. intros Hin.
    assert (is_Some (foldl (λ acc item, <[item.1 := f item]> acc)
                       (∅ : gmap string V) items !! k)) as [v Hv].
    { apply dom_foldl_insert_entries. by left. }
    congruence.
Qed.
End contributions_loop_facts.

Section decomposition.
Context (df : DataFrame) (all_indicators : list string)
        (iw : gmap string Qc) (poverty_threshold : Qc).

Abbreviation scored_df := (core df all_indicators iw poverty_threshold).1.
Abbreviation stats_of := (core df all_indicators iw poverty_threshold).2.
Abbreviation poor_rows := (filter (poor all_indicators iw poverty_threshold) (rows df)).

Hypothesis some_poor : poor_rows ≠ [].

Lemma some_poor_rows_nonempty : rows df ≠ [].
Proof. intros Hnil. apply some_poor. by rewrite Hnil. Qed.

Lemma some_poor_H :
  H stats_of = Num (of_nat (length poor_rows) / of_nat (length (rows df))).
Proof.
  rewrite core_H, mean_cons_inv, sum_of_bool, length_fmap; [done|].
  intros Hnil%fmap_nil_inv. by apply some_poor_rows_nonempty.
Qed.

Lemma some_poor_gt0 : gt0 (H stats_of) = true.
Proof. rewrite core_H. by apply gt0_mean_of_bool. Qed.

Lemma some_poor_A :
  A stats_of = Num (sum (deprivation_score all_indicators iw <$> poor_rows)
                    / of_nat (length poor_rows)).
Proof.
  rewrite core_A, some_poor_gt0, core_poor_scores, mean_cons_inv, length_fmap; [done|].
  by intros Hnil%fmap_nil_inv.
Qed.

End decomposition.

Section contributions.
Context (df : DataFrame) (all_indicators : list string)
        (iw : gmap string Qc) (poverty_threshold : Qc).
Hypothesis some_poor :
  filter (poor all_indicators iw poverty_threshold) (rows df) ≠ [].

Abbreviation the_scored_df := (core df all_indicators iw poverty_threshold).1.
Abbreviation the_stats := (core df all_indicators iw poverty_threshold).2.

Lemma contribution_entry_some_poor MPI item :
  Contribution (contribution_entry MPI (H the_stats) (mask the_scored_df Is_Poor) item)
  = contribution_of (H the_stats) the_scored_df item.
Proof.
  unfold contribution_entry, contribution_of, prevalence_among_poor.
  cbn [Contribution]. by rewrite some_poor_gt0.
Qed.
End contributions.

(** C2 at an input on which it fails.  A weight 1 is given for [a], the
    only listed indicator, and a weight 1/2 for the column [b], which
    [dimensions] does not list.  The one observation is poor, H = 1 and
    MPI = 1, and [calculate_mpi] returns a contribution analysis with the
    contributions 1 for [a] and 1/2 for [b]: they sum to 3/2, not to MPI.
    On the returned table, these weights and this H, the check of
    [calculate_indicator_contributions] rejects the same contributions with
    its ValueError. *)
Theorem extra_weight_contributions_exceed_MPI :
  ∃ o fs',
    Sample_extra_weight.run = (Ok o, fs') ∧
    (∃ row : gmap string Qc, row ∈ rows (data o) ∧ row !! Is_Poor = Some 1) ∧
    H (stats o) = Num 1 ∧
    MPI (stats o) = Num 1 ∧
    (λ row, (Indicator row, Contribution row)) <$> contribution_analysis o
    = [("a", Num 1); ("b", Num (Q2Qc (1 # 2)))] ∧
    total (Contribution <$> contribution_analysis o) = Num (Q2Qc (3 # 2)) ∧
    total (Contribution <$> contribution_analysis o) ≠ MPI (stats o) ∧
    MPI_contributions_py.calculate_indicator_contributions (data o)
      (dict_of Sample_extra_weight.indicator_weights) (H (stats o))
    = Raise (ValueError Contribution_calculation_error).
Proof.
  eexists _, _. split; [vm_compute; reflexivity|].
  cbn [data stats contribution_analysis H MPI rows].
  split.
  { eexists. split; [by left|]. vm_compute. reflexivity. }
  assert (∀ x y : Q, Qred x = Qred y → ∀ p q, Num (Qcmake x p) = Num (Qcmake y q))
    as Hnum.
  { intros x y Hxy p q. f_equal. apply Qc_is_canon. simpl.
    by rewrite <-(Qred_correct x), <-(Qred_correct y), Hxy. }
  assert (∀ x y : Q, Qred x ≠ Qred y → ∀ p q, Num (Qcmake x p) ≠ Num (Qcmake y q))
    as Hneq.
  { intros x y Hxy p q [= Heq]. apply Hxy. by rewrite Heq. }
  split_and!.
  - vm_compute. by apply Hnum.
  - vm_compute. by apply Hnum.
  - vm_compute.
    apply (f_equal2 cons); [apply (f_equal2 pair); [reflexivity|by apply Hnum]|].
    apply (f_equal2 cons); [apply (f_equal2 pair); [reflexivity|by apply Hnum]|].
    reflexivity.
  - vm_compute. by apply Hnum.
  - vm_compute. by apply Hneq.
  - vm_compute. reflexivity.
Qed.

(** * Further properties of the code *)

Section order_facts.
Implicit Types (x y c : Qc) (l : list Qc).

Lemma of_nat_le (k m : nat) : (k ≤ m)%nat → of_nat k ≤ of_nat m.
Proof. intros Hle. unfold of_nat. apply (proj1 (Z2Qc_inj_le _ _)). lia. Qed.

Lemma of_nat_nonneg (k : nat) : 0 ≤ of_nat k.
Proof. rewrite <-of_nat_0. apply of_nat_le. lia. Qed.

Lemma Qc_div_nonneg x y : 0 ≤ x → 0 < y → 0 ≤ x / y.
Proof.
  intros Hx Hy. unfold Qcdiv. apply Qcmult_nonneg_nonneg; [done|].
  apply Qclt_le_weak. by apply Qcinv_pos.
Qed.

Lemma Qc_div_le_mono x y c : 0 < c → x ≤ y → x / c ≤ y / c.
Proof.
  intros Hc Hxy. unfold Qcdiv. apply Qcmult_le_mono_nonneg_r; [|done].
  apply Qclt_le_weak. by apply Qcinv_pos.
Qed.

Lemma Qc_div_self x : x ≠ 0 → x / x = 1.
Proof. intros Hx. by field. Qed.

Lemma Qc_mul_div_cancel x c : c ≠ 0 → c * x / c = x.
Proof. intros Hc. by field. Qed.

Lemma Qc_mul_div_cancel_r x c : c ≠ 0 → c * (x / c) = x.
Proof. intros Hc. by field. Qed.

(** A sum is at least, and at most, its length times a bound of its terms. *)
Lemma sum_lower_bound c l : (∀ x, x ∈ l → c ≤ x) → of_nat (length l) * c ≤ sum l.
Proof.
  induction l as [|x l IH]; intros Hl.
  - cbn [length]. rewrite of_nat_0, sum_nil, Qcmult_0_l. done.
  - cbn [length]. rewrite of_nat_S, sum_cons.
    replace ((of_nat (length l) + 1) * c) with (c + of_nat (length l) * c) by ring.
    apply Qcplus_le_compat; [apply Hl; by left|].
    apply IH. intros y Hy. apply Hl. by right.
Qed.

Lemma sum_upper_bound c l : (∀ x, x ∈ l → x ≤ c) → sum l ≤ of_nat (length l) * c.
Proof.
  induction l as [|x l IH]; intros Hl.
  - cbn [length]. rewrite of_nat_0, sum_nil, Qcmult_0_l. done.
  - cbn [length]. rewrite of_nat_S, sum_cons.
    replace ((of_nat (length l) + 1) * c) with (c + of_nat (length l) * c) by ring.
    apply Qcplus_le_compat; [apply Hl; by left|].
    apply IH. intros y Hy. apply Hl. by right.
Qed.

Lemma sum_fmap_le {A} (f g : A → Qc) (l : list A) :
  (∀ a, a ∈ l → f a ≤ g a) → sum (f <$> l) ≤ sum (g <$> l).
Proof.
  induction l as [|a l IH]; intros Hl; [done|].
  rewrite !fmap_cons, !sum_cons.
  apply Qcplus_le_compat; [apply Hl; by left|].
  apply IH. intros b Hb. apply Hl. by right.
Qed.

Lemma sum_fmap_nonneg {A} (f : A → Qc) (l : list A) :
  (∀ a, a ∈ l → 0 ≤ f a) → 0 ≤ sum (f <$> l).
Proof.
  intros Hl. rewrite <-(Qcmult_0_r (of_nat (length (f <$> l)))).
  apply sum_lower_bound. intros x (a & -> & Ha)%list_elem_of_fmap. by apply Hl.
Qed.

Lemma length_filter_impl {A} (P Q : A → Prop)
    `{!∀ a, Decision (P a)} `{!∀ a, Decision (Q a)} (l : list A) :
  (∀ a, P a → Q a) → (length (filter P l) ≤ length (filter Q l))%nat.
Proof.
  intros HPQ. induction l as [|a l IH]; [done|].
  rewrite !filter_cons.
  destruct (decide (P a)) as [HP|HP].
  - rewrite decide_True by auto. cbn [length]. lia.
  - destruct (decide (Q a)); cbn [length]; lia.
Qed.
End order_facts.

Section bounds.
Context (df : DataFrame) (all_indicators : list string) (iw : gmap string Qc).

Lemma core_H_quotient thr :
  rows df ≠ [] →
  H (core df all_indicators iw thr).2
  = Num (of_nat (length (filter (poor all_indicators iw thr) (rows df)))
         / of_nat (length (rows df))).
Proof.
  intros Hne. rewrite core_H, mean_cons_inv by (by destruct (rows df)).
  by rewrite sum_of_bool, length_fmap.
Qed.

Lemma rows_length_pos : rows df ≠ [] → 0 < of_nat (length (rows df)).
Proof. intros Hne. apply of_nat_pos. destruct (rows df); [done|cbn; lia]. Qed.
End bounds.

(** X1: on every normal return for a table with at least one observation,
    the headcount ratio is a number between 0 and 1. *)
Theorem headcount_between_0_and_1 path_root fs data_path dimensions domain_weights
    indicator_weights poverty_threshold output_path o fs' :
  calculate_mpi path_root fs data_path dimensions domain_weights indicator_weights
    poverty_threshold output_path = (Ok o, fs') →
  rows (data o) ≠ [] →
  ∃ h, H (stats o) = Num h ∧ 0 ≤ h ∧ h ≤ 1.
Proof.
  intros Hrun Hne.
  apply calculate_mpi_Ok in Hrun as (df & dw & iw & _ & _ & Hdata & -> & _).
  rewrite Hdata, core_rows in Hne.
  assert (rows df ≠ []) as Hrows by (by intros Hnil; rewrite Hnil in Hne).
  rewrite core_H_quotient by done. eexists. split; [done|].
  pose proof (rows_length_pos df Hrows) as Hpos. split.
  - apply Qc_div_nonneg; [apply of_nat_nonneg|done].
  - etrans; [apply Qc_div_le_mono; [done|apply of_nat_le, length_filter]|].
    rewrite Qc_div_self; [done|]. intros Heq. rewrite Heq in Hpos.
    by apply Qclt_not_eq in Hpos.
Qed.

Lemma headcount_between_0_and_1_witness :
  ∃ o fs', Sample.run = (Ok o, fs') ∧ ∃ h, H (stats o) = Num h ∧ 0 ≤ h ∧ h ≤ 1.
Proof.
  assert (∃ o, Sample.run = (Ok o, Sample.run.2) ∧ (0 < length (rows (data o)))%nat)
    as (o & Hrun & Hlen).
  { eexists. split; [vm_compute; reflexivity|].
    apply Nat.ltb_lt. vm_compute. reflexivity. }
  exists o, Sample.run.2. split; [exact Hrun|].
  apply (headcount_between_0_and_1 Sample.path_root Sample.files "data.csv"
           Sample.dimensions None None Sample.third None o _ Hrun).
  intros Hnil. rewrite Hnil in Hlen. exact (Nat.lt_irrefl _ Hlen).
Defined.

(** X3: when the cells of an observation under the listed indicators lie
    between 0 and 1 (as binary indicators do) and the resolved weights of the
    listed indicators are not negative, the score of the observation lies
    between 0 and the sum of the weights over the listed indicators. *)
Theorem score_between_0_and_total_weight (all_indicators : list string)
    (indicator_weights row : gmap string Qc) :
  (∀ ind, ind ∈ all_indicators → 0 ≤ row !!! ind ∧ row !!! ind ≤ 1) →
  (∀ ind, ind ∈ all_indicators → 0 ≤ indicator_weights !!! ind) →
  0 ≤ deprivation_score all_indicators indicator_weights row ∧
  deprivation_score all_indicators indicator_weights row
  ≤ sum ((λ ind, indicator_weights !!! ind) <$> all_indicators).
Proof.
  intros Hcell Hw. unfold deprivation_score. split.
  - apply sum_fmap_nonneg. intros ind Hind.
    apply Qcmult_nonneg_nonneg; [by apply Hcell|by apply Hw].
  - apply sum_fmap_le. intros ind Hind.
    rewrite <-(Qcmult_1_l (indicator_weights !!! ind)) at 2.
    apply Qcmult_le_mono_nonneg_r; [by apply Hw|by apply Hcell].
Qed.

Lemma score_between_0_and_total_weight_witness :
  let iw : gmap string Qc := {["a" := Q2Qc (1 # 2); "b" := Q2Qc (1 # 2)]} in
  0 ≤ deprivation_score ["a"; "b"] iw (Sample.row 1 0) ∧
  deprivation_score ["a"; "b"] iw (Sample.row 1 0)
  ≤ sum ((λ ind, iw !!! ind) <$> ["a"; "b"]).
Proof.
  intros iw. apply score_between_0_and_total_weight.
  - intros ind [->|[->|[]%elem_of_nil]%elem_of_cons]%elem_of_cons;
      split; apply (bool_decide_unpack _); by vm_compute.
  - intros ind [->|[->|[]%elem_of_nil]%elem_of_cons]%elem_of_cons;
      apply (bool_decide_unpack _); by vm_compute.
Defined.

(** X4: for the same table and weights, a higher poverty threshold never
    gives a higher headcount ratio. *)
Theorem headcount_antitone_in_threshold (df : DataFrame) (all_indicators : list string)
    (indicator_weights : gmap string Qc) (threshold1 threshold2 : Qc) :
  rows df ≠ [] →
  threshold1 ≤ threshold2 →
  ∃ h1 h2,
    H (core df all_indicators indicator_weights threshold1).2 = Num h1 ∧
    H (core df all_indicators indicator_weights threshold2).2 = Num h2 ∧
    h2 ≤ h1.
Proof.
  intros Hne Hle. rewrite !core_H_quotient by done.
  eexists _, _. split; [done|]. split; [done|].
  apply Qc_div_le_mono; [by apply rows_length_pos|].
  apply of_nat_le, length_filter_impl. intros r Hr. unfold poor in *.
  by etrans.
Qed.

Lemma headcount_antitone_in_threshold_witness :
  ∃ h1 h2,
    H (core Sample.table ["a"; "b"] {["a" := Q2Qc (1 # 2); "b" := Q2Qc (1 # 2)]}
         Sample.third).2 = Num h1 ∧
    H (core Sample.table ["a"; "b"] {["a" := Q2Qc (1 # 2); "b" := Q2Qc (1 # 2)]} 1).2
    = Num h2 ∧
    h2 ≤ h1.
Proof.
  apply headcount_antitone_in_threshold.
  - vm_compute. intros Hnil. discriminate Hnil.
  - apply (bool_decide_unpack _). by vm_compute.
Defined.

Section scored_table.
Context (df : DataFrame) (all_indicators : list string)
        (iw : gmap string Qc) (poverty_threshold : Qc).

Lemma core_columns_eq :
  columns (core df all_indicators iw poverty_threshold).1
  = (columns df
     ++ (if bool_decide (Deprivation_Score ∈ columns df) then [] else [Deprivation_Score]))
     ++ (if bool_decide (Is_Poor ∈ columns df) then [] else [Is_Poor]).
Proof.
  unfold core, setitem; cbn [fst columns].
  destruct (bool_decide (Deprivation_Score ∈ columns df)) eqn:Hs.
  - rewrite app_nil_r. by destruct (bool_decide (Is_Poor ∈ columns df)); rewrite ?app_nil_r.
  - destruct (bool_decide (Is_Poor ∈ columns df)) eqn:Hp.
    + rewrite app_nil_r. apply bool_decide_eq_true in Hp.
      rewrite bool_decide_true; [done|]. apply elem_of_app. by left.
    + apply bool_decide_eq_false in Hp.
      rewrite bool_decide_false; [done|].
      intros [?|Hin%list_elem_of_singleton]%elem_of_app; done.
Qed.
End scored_table.

(** X5: on every normal return the returned table is the input table with
    the columns [Deprivation_Score] and [Is_Poor]: its columns are those of
    the input in their order, followed by each of the two that the input
    lacks; it has the observations of the input in their order; and every
    cell under another column is the cell of the input. *)
Theorem scored_table_extends_input path_root fs data_path dimensions domain_weights
    indicator_weights poverty_threshold output_path df o fs' :
  fs !! data_path = Some df →
  calculate_mpi path_root fs data_path dimensions domain_weights indicator_weights
    poverty_threshold output_path = (Ok o, fs') →
  columns (data o)
  = (columns df
     ++ (if bool_decide (Deprivation_Score ∈ columns df) then [] else [Deprivation_Score]))
     ++ (if bool_decide (Is_Poor ∈ columns df) then [] else [Is_Poor]) ∧
  length (rows (data o)) = length (rows df) ∧
  ∀ (i : nat) (row : gmap string Qc),
    rows df !! i = Some row →
    ∃ row' : gmap string Qc,
      rows (data o) !! i = Some row' ∧
      is_Some (row' !! Deprivation_Score) ∧ is_Some (row' !! Is_Poor) ∧
      ∀ c, c ≠ Deprivation_Score → c ≠ Is_Poor → row' !! c = row !! c.
Proof.
  intros Hfs Hrun.
  apply calculate_mpi_Ok in Hrun as (df' & dw & iw & Hfs' & _ & -> & _).
  assert (df' = df) as -> by congruence.
  split; [apply core_columns_eq|]. split; [by rewrite core_rows, length_fmap|].
  intros i row Hi. rewrite core_rows, list_lookup_fmap, Hi. cbn.
  eexists. split; [done|]. unfold scored. split_and!.
  - rewrite lookup_insert_ne by done. by rewrite lookup_insert_eq.
  - by rewrite lookup_insert_eq.
  - intros c Hs Hp. by rewrite !lookup_insert_ne.
Qed.

Lemma scored_table_extends_input_witness :
  ∃ o fs',
    Sample.run = (Ok o, fs') ∧
    columns (data o) = ["a"; "b"; Deprivation_Score; Is_Poor] ∧
    length (rows (data o)) = 3%nat.
Proof.
  assert (∃ o, Sample.run = (Ok o, Sample.run.2)) as [o Hrun].
  { eexists. vm_compute. reflexivity. }
  exists o, Sample.run.2. split; [exact Hrun|].
  destruct (scored_table_extends_input Sample.path_root Sample.files "data.csv"
              Sample.dimensions None None Sample.third None Sample.table
              o _ eq_refl Hrun) as (Hcols & Hlen & _).
  split; [exact Hcols|exact Hlen].
Defined.

(** X6: a normal return of the function of [MPI.py] leaves the files as
    they were except for one: the returned table, stored under [output_path]
    when that is given and not empty, and otherwise under the root of
    [data_path] followed by [_scored.csv].  The second default name,
    [_full_analysis.csv], is never used. *)
Theorem one_file_written path_root fs data_path dimensions domain_weights
    indicator_weights poverty_threshold output_path o fs' :
  calculate_mpi path_root fs data_path dimensions domain_weights indicator_weights
    poverty_threshold output_path = (Ok o, fs') →
  let target :=
    match output_path with
    | Some p => if bool_decide (p = "") then path_root data_path +:+ "_scored.csv" else p
    | None => path_root data_path +:+ "_scored.csv"
    end in
  fs' = <[target := data o]> fs ∧
  ∀ p, p ≠ target → fs' !! p = fs !! p.
Proof.
  intros Hrun target.
  assert (fs' = <[target := data o]> fs) as ->.
  { revert Hrun. unfold calculate_mpi, read_csv.
    destruct (fs !! data_path) as [df|]; [|done].
    destruct (validate _ _ _ _) as [[dw iw]|]; [|done].
    destruct (check_scores_one_column _) as [[]|]; [|done].
    destruct (core _ _ _ _) as [df' st].
    destruct (get_contribution_analysis _ _ _ _); [|done].
    rewrite or_default_again. intros [= <- <-]. cbn [data].
    unfold to_csv. by rewrite insert_insert_eq. }
  split; [done|]. intros p Hp. by rewrite lookup_insert_ne.
Qed.

Lemma one_file_written_witness :
  ∃ o fs',
    Sample.run = (Ok o, fs') ∧
    fs' = <["data_scored.csv" := data o]> Sample.files ∧
    fs' !! "data_full_analysis.csv" = None.
Proof.
  assert (∃ o, Sample.run = (Ok o, Sample.run.2)) as [o Hrun].
  { eexists. vm_compute. reflexivity. }
  exists o, Sample.run.2. split; [exact Hrun|].
  destruct (one_file_written Sample.path_root Sample.files "data.csv"
              Sample.dimensions None None Sample.third None o _ Hrun)
    as (Hfs & Hother).
  split; [exact Hfs|].
  rewrite Hother; [reflexivity|].
  apply (bool_decide_unpack _). vm_compute. reflexivity.
Defined.

(** X7: whatever the weights and the threshold are, when some indicator
    listed in [dimensions] is no column of the table, [calculate_mpi] raises
    the ValueError that names exactly the listed indicators that are no
    columns, and writes nothing. *)
Theorem missing_columns_rejected path_root fs data_path dimensions domain_weights
    indicator_weights poverty_threshold output_path df ind :
  fs !! data_path = Some df →
  ind ∈ all_indicators_of dimensions →
  ind ∉ columns df →
  calculate_mpi path_root fs data_path dimensions domain_weights indicator_weights
    poverty_threshold output_path
  = (Raise (ValueError (Missing_columns
              (list_to_set (all_indicators_of dimensions) ∖ list_to_set (columns df)))),
     fs) ∧
  ∀ c, c ∈@{gset string}
         list_to_set (all_indicators_of dimensions) ∖ list_to_set (columns df)
       ↔ c ∈ all_indicators_of dimensions ∧ c ∉ columns df.
Proof.
  intros Hfs Hin Hcol. split.
  - unfold calculate_mpi, read_csv, validate, check_columns. rewrite Hfs.
    rewrite bool_decide_true; [done|]. intros Hempty.
    assert (ind ∈@{gset string}
              list_to_set (all_indicators_of dimensions) ∖ list_to_set (columns df))
      as Hmem by set_solver.
    rewrite Hempty in Hmem. set_solver.
  - intros c. set_solver.
Qed.

Lemma missing_columns_rejected_witness :
  (calculate_mpi Sample.path_root Sample.files "data.csv"
     [("health", ["a"; "c"])] None None Sample.third None).1
  = Raise (ValueError (Missing_columns
             (list_to_set (all_indicators_of [("health", ["a"; "c"])])
              ∖ list_to_set (columns Sample.table)))).
Proof.
  destruct (missing_columns_rejected Sample.path_root Sample.files "data.csv"
              [("health", ["a"; "c"])] None None Sample.third None Sample.table "c")
    as (Hrun & _).
  - reflexivity.
  - apply (bool_decide_unpack _). by vm_compute.
  - apply (bool_decide_unpack _). by vm_compute.
  - by rewrite Hrun.
Defined.

Section spreading.
Implicit Types (dimensions : list (string * list string)) (dw m : gmap string Qc).

Lemma NoDup_all_indicators_cons domain (indicators : list string) dimensions :
  NoDup (all_indicators_of ((domain, indicators) :: dimensions)) →
  NoDup indicators ∧ NoDup (all_indicators_of dimensions) ∧
  ∀ ind, ind ∈ indicators → ind ∉ all_indicators_of dimensions.
Proof.
  unfold all_indicators_of. cbn [fmap list_fmap snd concat].
  intros (? & ? & ?)%list.NoDup_app. done.
Qed.

Lemma spread_domain_weights_lookup dimensions dw m m' :
  spread_domain_weights dimensions dw m = Ok m' →
  NoDup (all_indicators_of dimensions) →
  (∀ domain indicators ind,
     (domain, indicators) ∈ dimensions → ind ∈ indicators →
     m' !! ind = Some (get dw domain / of_nat (length indicators))) ∧
  (∀ ind, ind ∉ all_indicators_of dimensions → m' !! ind = m !! ind).
Proof.
  revert m. induction dimensions as [|[d inds] dimensions IH]; intros m Hs Hnodup.
  - injection Hs as <-. split; [|done]. by intros ??? ?%elem_of_nil.
  - cbn [spread_domain_weights] in Hs. case_bool_decide; [done|].
    apply NoDup_all_indicators_cons in Hnodup as (_ & Hrest & Hfresh).
    apply IH in Hs as (Hin & Hout); [|done]. split.
    + intros domain indicators ind [[= -> ->]|Hd]%elem_of_cons Hind.
      * rewrite Hout by (by apply Hfresh).
        rewrite lookup_foldl_insert_const. by rewrite decide_True.
      * by eapply Hin.
    + intros ind Hind. rewrite elem_of_all_indicators_cons in Hind.
      rewrite Hout by tauto.
      rewrite lookup_foldl_insert_const. rewrite decide_False by tauto. done.
Qed.

Lemma spread_domain_weights_returns dimensions dw m :
  (∀ domain, (domain, []) ∉ dimensions) →
  ∃ m', spread_domain_weights dimensions dw m = Ok m'.
Proof.
  intros Hfull.
  pose proof (spread_domain_weights_outcome dimensions dw m) as Hs.
  destruct (spread_domain_weights dimensions dw m) as [m'|e]; [by exists m'|].
  destruct Hs as (_ & d & Hd). by apply Hfull in Hd.
Qed.

Lemma spread_domain_weights_sums dimensions dw m m' :
  spread_domain_weights dimensions dw m = Ok m' →
  NoDup (all_indicators_of dimensions) →
  ∀ domain indicators,
    (domain, indicators) ∈ dimensions →
    sum ((λ ind, m' !!! ind) <$> indicators) = get dw domain.
Proof.
  intros Hs Hnodup d inds Hd.
  pose proof (spread_domain_weights_outcome dimensions dw m) as Hfull.
  rewrite Hs in Hfull.
  apply spread_domain_weights_lookup in Hs as (Hin & _); [|done].
  rewrite (list_fmap_ext _ (λ _, get dw d / of_nat (length inds)) inds).
  - rewrite sum_fmap_const.
    assert (inds ≠ []) as Hne by (intros ->; by apply Hfull in Hd).
    apply Qc_mul_div_cancel_r, of_nat_neq_0.
    destruct inds; [done|cbn; lia].
  - intros i ind Hi. apply lookup_total_correct. eapply Hin; [done|].
    by eapply list_elem_of_lookup_2.
Qed.

Lemma check_alignment_passes dimensions dw iw :
  (∀ domain indicators, (domain, indicators) ∈ dimensions →
     get dw domain = sum (get iw <$> indicators)) →
  check_alignment dimensions dw iw = Ok ().
Proof.
  intros Heq.
  pose proof (check_alignment_outcome dimensions dw iw) as Hc.
  destruct (check_alignment dimensions dw iw) as [[]|e]; [done|].
  destruct Hc as (_ & d & inds & Hd & Hclose).
  rewrite (Heq d inds Hd), isclose_refl in Hclose; done.
Qed.
End spreading.

(** X8: when only domain weights are given, every domain lists at least one
    indicator and no indicator is listed twice, the weight of each domain is
    spread evenly over its indicators: an indicator receives the weight of
    its domain (0 for a domain without weight) divided by the number of
    indicators of the domain, no other label receives a weight, and the
    domain weights are used as given. *)
Theorem domain_weights_spread_evenly dimensions domain_weights indicator_weights :
  truthy domain_weights = true →
  truthy indicator_weights = false →
  (∀ domain, (domain, []) ∉ dimensions) →
  NoDup (all_indicators_of dimensions) →
  ∃ iw,
    resolve_weights dimensions (all_indicators_of dimensions)
      domain_weights indicator_weights = Ok (dict_of domain_weights, iw) ∧
    (∀ domain indicators ind,
       (domain, indicators) ∈ dimensions → ind ∈ indicators →
       iw !! ind
       = Some (get (dict_of domain_weights) domain / of_nat (length indicators))) ∧
    (∀ ind, ind ∉ all_indicators_of dimensions → iw !! ind = None).
Proof.
  intros Hdw Hiw Hfull Hnodup.
  destruct (spread_domain_weights_returns dimensions (dict_of domain_weights) ∅ Hfull)
    as [iw Hs].
  exists iw. unfold resolve_weights. rewrite Hdw, Hiw, Hs. cbn [andb].
  split; [done|].
  apply spread_domain_weights_lookup in Hs as (Hin & Hout); [|done].
  split; [done|].
  intros ind Hind. by rewrite Hout.
Qed.

Lemma domain_weights_spread_evenly_witness :
  let dw : gmap string Qc := {["health" := Q2Qc (3 # 5); "education" := Q2Qc (2 # 5)]} in
  ∃ iw,
    resolve_weights Sample.dimensions (all_indicators_of Sample.dimensions) (Some dw) None
    = Ok (dw, iw) ∧
    iw !! "a" = Some (get dw "health" / of_nat 1).
Proof.
  intros dw.
  destruct (domain_weights_spread_evenly Sample.dimensions (Some dw) None)
    as (iw & Hr & Hin & _).
  - by vm_compute.
  - reflexivity.
  - intros d [[=]|[[=]|[]%elem_of_nil]%elem_of_cons]%elem_of_cons.
  - apply (bool_decide_unpack _). by vm_compute.
  - exists iw. split; [exact Hr|].
    apply (Hin "health" ["a"] "a"); [by left|by left].
Defined.

Section collecting.
Implicit Types (dimensions : list (string * list string)) (iw : gmap string Qc).

Lemma collect_domain_weights_lookup dimensions iw domain indicators :
  NoDup dimensions.*1 →
  (domain, indicators) ∈ dimensions →
  collect_domain_weights dimensions iw !! domain
  = Some (sum (get iw <$> indicators)).
Proof.
  intros Hkeys Hd. unfold collect_domain_weights.
  by rewrite (lookup_foldl_insert_items (λ inds, sum (get iw <$> inds))
                dimensions ∅ domain indicators).
Qed.

Lemma collect_domain_weights_None dimensions iw domain :
  domain ∉ dimensions.*1 → collect_domain_weights dimensions iw !! domain = None.
Proof.
  intros Hd. apply eq_None_not_Some. unfold collect_domain_weights.
  rewrite (dom_foldl_insert_items (λ inds, sum (get iw <$> inds))), lookup_empty.
  intros [?|[? ?]]; done.
Qed.
End collecting.

(** X9: when only indicator weights are given and the domains are pairwise
    distinct, the indicator weights are used as given and the weight of each
    domain is the sum of the given weights of its indicators, an indicator
    without given weight counting 0; nothing else receives a domain weight. *)
Theorem indicator_weights_collected dimensions domain_weights indicator_weights :
  truthy domain_weights = false →
  truthy indicator_weights = true →
  NoDup dimensions.*1 →
  ∃ dw,
    resolve_weights dimensions (all_indicators_of dimensions)
      domain_weights indicator_weights = Ok (dw, dict_of indicator_weights) ∧
    (∀ domain indicators,
       (domain, indicators) ∈ dimensions →
       dw !! domain
       = Some (sum ((λ ind, default 0 (dict_of indicator_weights !! ind)) <$> indicators))) ∧
    (∀ domain, domain ∉ dimensions.*1 → dw !! domain = None).
Proof.
  intros Hdw Hiw Hkeys. eexists.
  unfold resolve_weights. rewrite Hdw, Hiw. cbn [andb]. split; [done|]. split.
  - intros d inds Hd. by apply collect_domain_weights_lookup.
  - intros d Hd. by apply collect_domain_weights_None.
Qed.

Lemma indicator_weights_collected_witness :
  let iw : gmap string Qc := {["a" := Q2Qc (3 # 5)]} in
  ∃ dw,
    resolve_weights Sample.dimensions (all_indicators_of Sample.dimensions) None (Some iw)
    = Ok (dw, iw) ∧
    dw !! "education" = Some (sum ((λ ind, default 0 (iw !! ind)) <$> ["b"])).
Proof.
  intros iw.
  destruct (indicator_weights_collected Sample.dimensions None (Some iw))
    as (dw & Hr & Hin & _).
  - reflexivity.
  - by vm_compute.
  - apply (bool_decide_unpack _). by vm_compute.
  - exists dw. split; [exact Hr|].
    apply (Hin "education" ["b"]). right. by left.
Defined.

Section alignment.
Implicit Types (dimensions : list (string * list string)) (dw iw : gmap string Qc).

Lemma get_lookup_total iw ind : get iw ind = iw !!! ind.
Proof. by rewrite lookup_total_alt. Qed.

Lemma equal_weights_domain dimensions dw iw domain indicators :
  equal_weights dimensions (all_indicators_of dimensions) = Ok (dw, iw) →
  NoDup dimensions.*1 →
  (domain, indicators) ∈ dimensions →
  dw !! domain = Some (sum ((λ ind, iw !!! ind) <$> indicators)).
Proof.
  unfold equal_weights. case_bool_decide; [done|]. intros [= <- <-] Hkeys Hd.
  by rewrite (lookup_foldl_insert_items
                (λ inds, sum ((λ ind, _ !!! ind) <$> inds)) dimensions ∅ domain indicators).
Qed.

Lemma resolved_weights_match dimensions odw oiw dw iw :
  NoDup dimensions.*1 →
  NoDup (all_indicators_of dimensions) →
  resolve_weights dimensions (all_indicators_of dimensions) odw oiw = Ok (dw, iw) →
  check_alignment dimensions dw iw = Ok ().
Proof.
  intros Hkeys Hnodup. unfold resolve_weights.
  destruct (truthy odw) eqn:Hdw, (truthy oiw) eqn:Hiw; cbn [andb].
  - destruct (check_alignment _ _ _) as [[]|] eqn:Hc; [|done].
    cbn [mbind result_bind]. by intros [= <- <-].
  - destruct (spread_domain_weights _ _ _) as [m|] eqn:Hs; [|done].
    cbn [mbind result_bind]. intros [= <- <-].
    apply check_alignment_passes. intros d inds Hd.
    rewrite <-(spread_domain_weights_sums _ _ _ _ Hs Hnodup d inds Hd).
    f_equal; apply list_fmap_ext; intros; apply get_lookup_total.
  - intros [= <- <-]. apply check_alignment_passes. intros d inds Hd.
    unfold get at 1. by rewrite (collect_domain_weights_lookup _ _ d inds).
  - intros Heq. apply check_alignment_passes. intros d inds Hd.
    unfold get at 1. rewrite (equal_weights_domain _ _ _ d inds Heq) by done.
    cbn [default]. f_equal; apply list_fmap_ext; intros;
      symmetry; apply get_lookup_total.
Qed.
End alignment.

(** X10: the weights the four cases resolve are aligned.  When the domains
    are pairwise distinct and no indicator is listed twice, the resolved
    pair of dictionaries passes the check of lines 40-45, and handing both
    resolved dictionaries (when neither is empty) back as arguments resolves
    to the same pair. *)
Theorem resolved_weights_aligned dimensions domain_weights indicator_weights dw iw :
  NoDup dimensions.*1 →
  NoDup (all_indicators_of dimensions) →
  resolve_weights dimensions (all_indicators_of dimensions)
    domain_weights indicator_weights = Ok (dw, iw) →
  check_alignment dimensions dw iw = Ok () ∧
  (dw ≠ ∅ → iw ≠ ∅ →
   resolve_weights dimensions (all_indicators_of dimensions) (Some dw) (Some iw)
   = Ok (dw, iw)).
Proof.
  intros Hkeys Hnodup Hr.
  pose proof (resolved_weights_match _ _ _ _ _ Hkeys Hnodup Hr) as Hc.
  split; [done|]. intros Hdw Hiw.
  unfold resolve_weights, truthy, dict_of. rewrite !bool_decide_true by done.
  cbn [andb default id]. by rewrite Hc.
Qed.

Lemma resolved_weights_aligned_witness :
  ∃ dw iw,
    resolve_weights Sample.dimensions (all_indicators_of Sample.dimensions) None None
    = Ok (dw, iw) ∧
    resolve_weights Sample.dimensions (all_indicators_of Sample.dimensions)
      (Some dw) (Some iw) = Ok (dw, iw).
Proof.
  assert (∃ dw iw,
            resolve_weights Sample.dimensions (all_indicators_of Sample.dimensions)
              None None = Ok (dw, iw) ∧
            is_Some (dw !! "health") ∧ is_Some (iw !! "a"))
    as (dw & iw & Hr & [x Hdw] & [y Hiw]).
  { eexists _, _. split; [vm_compute; reflexivity|]. split; by eexists. }
  assert (NoDup Sample.dimensions.*1) as Hkeys
    by (apply (bool_decide_unpack _); by vm_compute).
  assert (NoDup (all_indicators_of Sample.dimensions)) as Hnodup
    by (apply (bool_decide_unpack _); by vm_compute).
  exists dw, iw. split; [exact Hr|].
  apply (proj2 (resolved_weights_aligned Sample.dimensions None None dw iw
                  Hkeys Hnodup Hr)).
  - intros Hempty. rewrite Hempty, lookup_empty in Hdw. discriminate Hdw.
  - intros Hempty. rewrite Hempty, lookup_empty in Hiw. discriminate Hiw.
Defined.

Section sorted_facts.
Context {A : Type} (key : A → number).

Lemma desc_before_total a b : desc_before a b = false → desc_before b a = true.
Proof.
  destruct a as [|x], b as [|y]; cbn; try done.
  intros Hxy%bool_decide_eq_false. apply bool_decide_eq_true.
  apply Qclt_le_weak. by apply Qcnot_le_lt.
Qed.

Lemma desc_before_trans a b c :
  desc_before a b = true → desc_before b c = true → desc_before a c = true.
Proof.
  destruct a as [|x], b as [|y], c as [|z]; cbn; try done.
  intros Hxy%bool_decide_eq_true Hyz%bool_decide_eq_true.
  apply bool_decide_eq_true. by etrans.
Qed.

Lemma insert_desc_sorted x (l : list A) :
  sorted_desc key l → sorted_desc key (insert_desc key x l).
Proof.
  induction l as [|y l IH]; intros Hl.
  - cbn. split; [|done]. by intros ? ?%elem_of_nil.
  - cbn [insert_desc]. destruct Hl as (Hy & Hl).
    destruct (desc_before (key x) (key y)) eqn:Hxy.
    + split; [|by split]. intros z [->|Hz]%elem_of_cons; [done|].
      eapply desc_before_trans; [done|]. by apply Hy.
    + split; [|by apply IH].
      intros z Hz. rewrite insert_desc_Permutation in Hz.
      apply elem_of_cons in Hz as [->|Hz]; [by apply desc_before_total|by apply Hy].
Qed.

Lemma sort_values_desc_sorted (l : list A) : sorted_desc key (sort_values_desc key l).
Proof.
  induction l as [|x l IH]; [done|].
  unfold sort_values_desc in *. cbn [foldr]. by apply insert_desc_sorted.
Qed.
End sorted_facts.

Section analysis_of_return.
Context (path_root : string → string).
Context (fs : gmap string DataFrame) (data_path : string)
        (dimensions : list (string * list string))
        (domain_weights indicator_weights : option (gmap string Qc))
        (poverty_threshold : Qc) (output_path : option string).

(** What a normal return tells about the two analysis frames. *)
Lemma calculate_mpi_Ok_analysis o fs' :
  calculate_mpi path_root fs data_path dimensions domain_weights indicator_weights
    poverty_threshold output_path = (Ok o, fs') →
  ∃ df dw iw,
    fs !! data_path = Some df ∧
    validate df dimensions domain_weights indicator_weights = Ok (dw, iw) ∧
    data o = (core df (all_indicators_of dimensions) iw poverty_threshold).1 ∧
    stats o = (core df (all_indicators_of dimensions) iw poverty_threshold).2 ∧
    deprivation_analysis o
    = get_deprivation_proportions (data o) (all_indicators_of dimensions) ∧
    contribution_analysis o
    = sort_values_desc Contribution
        (contribution_entry (MPI (stats o)) (H (stats o)) (mask (data o) Is_Poor)
           <$> map_to_list iw) ∧
    weights o = map_to_list iw.
Proof.
  unfold calculate_mpi, read_csv.
  destruct (fs !! data_path) as [df|] eqn:Hfs; [|done].
  destruct (validate _ _ _ _) as [[dw iw]|e] eqn:Hv; [|done].
  destruct (check_scores_one_column _) as [[]|e]; [|done].
  destruct (core _ _ _ _) as [df' st] eqn:Hcore.
  destruct (get_contribution_analysis _ _ _ _) as [c|e] eqn:Hc; [|done].
  intros [= <- _]. exists df, dw, iw.
  cbn [data stats contribution_analysis deprivation_analysis weights].
  rewrite Hcore. split_and!; try done.
  by apply get_contribution_analysis_inv.
Qed.
End analysis_of_return.

(** X11: on every normal return the two analysis frames are ordered and
    complete.  The deprivation analysis holds, for each listing of an
    indicator in [dimensions], one row with the mean of its column in the
    returned table, by decreasing proportion; the contribution analysis
    holds one row for each weighted indicator, with its weight, by decreasing
    contribution. *)
Theorem analysis_frames_sorted path_root fs data_path dimensions domain_weights
    indicator_weights poverty_threshold output_path o fs' :
  calculate_mpi path_root fs data_path dimensions domain_weights indicator_weights
    poverty_threshold output_path = (Ok o, fs') →
  deprivation_analysis o
    ≡ₚ (λ ind, (ind, mean (series (data o) ind))) <$> all_indicators_of dimensions ∧
  sorted_desc snd (deprivation_analysis o) ∧
  (λ row, (Indicator row, Weight row)) <$> contribution_analysis o ≡ₚ weights o ∧
  sorted_desc Contribution (contribution_analysis o).
Proof.
  intros Hrun.
  apply calculate_mpi_Ok_analysis in Hrun
    as (df & dw & iw & _ & _ & _ & _ & -> & -> & ->).
  unfold get_deprivation_proportions. split_and!.
  - apply sort_values_desc_Permutation.
  - apply sort_values_desc_sorted.
  - rewrite sort_values_desc_Permutation, <-list_fmap_compose.
    rewrite (list_fmap_ext _ id (map_to_list iw)) by (by intros _ [??] _).
    by rewrite list_fmap_id.
  - apply sort_values_desc_sorted.
Qed.

Lemma analysis_frames_sorted_witness :
  ∃ o fs',
    Sample.run = (Ok o, fs') ∧
    sorted_desc snd (deprivation_analysis o) ∧
    sorted_desc Contribution (contribution_analysis o).
Proof.
  assert (∃ o, Sample.run = (Ok o, Sample.run.2)) as [o Hrun].
  { eexists. vm_compute. reflexivity. }
  exists o, Sample.run.2. split; [exact Hrun|].
  destruct (analysis_frames_sorted Sample.path_root Sample.files "data.csv"
              Sample.dimensions None None Sample.third None o _ Hrun)
    as (_ & Hd & _ & Hc).
  split; [exact Hd|exact Hc].
Defined.

Lemma sum_binary {A} (f : A → Qc) (l : list A) :
  (∀ a, a ∈ l → f a = 0 ∨ f a = 1) →
  sum (f <$> l) = of_nat (length (filter (λ a, f a = 1) l)).
Proof.
  intros Hbin. rewrite <-sum_of_bool. f_equal.
  apply list_fmap_ext. intros i a Hi.
  destruct (Hbin a) as [Ha|Ha]; [by eapply list_elem_of_lookup_2| |].
  - rewrite bool_decide_false; [done|]. rewrite Ha. intros Heq.
    by apply (f_equal (λ x : Qc, this x)) in Heq.
  - by rewrite bool_decide_true.
Qed.

(** X12: on a normal return for a table with at least one observation, the
    proportion reported for a listed indicator whose cells are all 0 or 1
    (and that is not named as one of the two added columns) is the number of
    observations deprived in it divided by the number of observations, a
    number between 0 and 1. *)
Theorem proportion_of_binary_indicator path_root fs data_path dimensions
    domain_weights indicator_weights poverty_threshold output_path df o fs' ind p :
  fs !! data_path = Some df →
  calculate_mpi path_root fs data_path dimensions domain_weights indicator_weights
    poverty_threshold output_path = (Ok o, fs') →
  rows df ≠ [] →
  ind ≠ Deprivation_Score → ind ≠ Is_Poor →
  (∀ row : gmap string Qc, row ∈ rows df → row !!! ind = 0 ∨ row !!! ind = 1) →
  (ind, p) ∈ deprivation_analysis o →
  ∃ q,
    p = Num q ∧
    q = of_nat (length (filter (λ row : gmap string Qc, row !!! ind = 1) (rows df)))
        / of_nat (length (rows df)) ∧
    0 ≤ q ∧ q ≤ 1.
Proof.
  intros Hfs Hrun Hne Hs Hp Hbin Hin.
  apply calculate_mpi_Ok_analysis in Hrun
    as (df' & dw & iw & Hfs' & _ & Hdata & _ & Hdep & _).
  assert (df' = df) as -> by congruence.
  rewrite Hdep in Hin. unfold get_deprivation_proportions in Hin.
  rewrite sort_values_desc_Permutation in Hin.
  apply list_elem_of_fmap in Hin as (ind' & [= <- ->] & _).
  unfold series. rewrite Hdata, core_rows, <-list_fmap_compose.
  rewrite (list_fmap_ext _ (λ row : gmap string Qc, row !!! ind) (rows df))
    by (intros; by apply scored_other).
  rewrite mean_cons_inv by (by intros ?%fmap_nil_inv).
  rewrite sum_binary, length_fmap by done.
  eexists. split; [done|]. split; [done|].
  pose proof (rows_length_pos df Hne) as Hpos. split.
  - apply Qc_div_nonneg; [apply of_nat_nonneg|done].
  - etrans; [apply Qc_div_le_mono; [done|apply of_nat_le, length_filter]|].
    rewrite Qc_div_self; [done|]. intros Heq. rewrite Heq in Hpos.
    by apply Qclt_not_eq in Hpos.
Qed.

Lemma proportion_of_binary_indicator_witness :
  ∃ o fs',
    Sample.run = (Ok o, fs') ∧
    ∀ p, ("a", p) ∈ deprivation_analysis o → ∃ q, p = Num q ∧ 0 ≤ q ∧ q ≤ 1.
Proof.
  assert (∃ o, Sample.run = (Ok o, Sample.run.2)) as [o Hrun].
  { eexists. vm_compute. reflexivity. }
  exists o, Sample.run.2. split; [exact Hrun|].
  intros p Hin.
  destruct (proportion_of_binary_indicator Sample.path_root Sample.files "data.csv"
              Sample.dimensions None None Sample.third None Sample.table
              o _ "a" p eq_refl Hrun) as (q & Hq & _ & Hq0 & Hq1).
  - intros Hnil. discriminate Hnil.
  - apply (bool_decide_unpack _). vm_compute. reflexivity.
  - apply (bool_decide_unpack _). vm_compute. reflexivity.
  - intros row Hrow. cbn in Hrow.
    repeat (apply elem_of_cons in Hrow as [->|Hrow]);
      [right|left|right|destruct (proj1 (elem_of_nil _) Hrow)];
      apply (bool_decide_unpack _); vm_compute; reflexivity.
  - exact Hin.
  - exists q. split; [exact Hq|]. split; [exact Hq0|exact Hq1].
Defined.

(** X13: on a normal return of the function of [MPI.py], every row of the
    contribution analysis has the percentage 0 when MPI is not greater than
    0, and otherwise its contribution divided by MPI, times 100. *)
Theorem contribution_percentages path_root fs data_path dimensions domain_weights
    indicator_weights poverty_threshold output_path o fs' :
  calculate_mpi path_root fs data_path dimensions domain_weights indicator_weights
    poverty_threshold output_path = (Ok o, fs') →
  ∀ row, row ∈ contribution_analysis o →
    Contribution_Pct row
    = if gt0 (MPI (stats o))
      then mul (div (Contribution row) (MPI (stats o))) (Num (Q2Qc 100))
      else Num 0.
Proof.
  intros Hrun row Hrow.
  apply calculate_mpi_Ok_analysis in Hrun
    as (df & dw & iw & _ & _ & _ & _ & _ & Hc & _).
  rewrite Hc, sort_values_desc_Permutation in Hrow.
  by apply list_elem_of_fmap in Hrow as (item & -> & _).
Qed.

Lemma contribution_percentages_witness :
  ∃ o fs',
    Sample.run = (Ok o, fs') ∧
    gt0 (MPI (stats o)) = true ∧
    ∀ row, row ∈ contribution_analysis o →
      Contribution_Pct row
      = mul (div (Contribution row) (MPI (stats o))) (Num (Q2Qc 100)).
Proof.
  assert (∃ o, Sample.run = (Ok o, Sample.run.2) ∧ gt0 (MPI (stats o)) = true)
    as (o & Hrun & Hgt).
  { eexists. split; vm_compute; reflexivity. }
  exists o, Sample.run.2. split; [exact Hrun|]. split; [exact Hgt|].
  intros row Hrow.
  rewrite (contribution_percentages Sample.path_root Sample.files "data.csv"
             Sample.dimensions None None Sample.third None o _ Hrun row Hrow).
  rewrite Hgt. reflexivity.
Defined.

Section dictionaries.
Lemma lookup_foldl_insert_fun {V} (f : string → V) (l : list string)
    (m : gmap string V) k :
  foldl (λ acc ind, <[ind := f ind]> acc) m l !! k
  = if decide (k ∈ l) then Some (f k) else m !! k.
Proof.
  revert m. induction l as [|a l IH]; intros m; [done|].
  cbn [foldl]. rewrite IH.
  destruct (decide (k ∈ l)) as [Hin|Hnin].
  - rewrite decide_True; [done|by right].
  - destruct (decide (k = a)) as [->|Hne].
    + rewrite decide_True by (by left). by rewrite lookup_insert_eq.
    + rewrite decide_False; [by rewrite lookup_insert_ne|].
      by intros [?|?]%elem_of_cons.
Qed.

Lemma lookup_foldl_insert_item {V} (f : string * Qc → V)
    (items : list (string * Qc)) item :
  NoDup items.*1 → item ∈ items →
  foldl (λ acc item, <[item.1 := f item]> acc) (∅ : gmap string V) items !! item.1
  = Some (f item).
Proof.
  intros Hnd Hin. apply elem_of_map_to_list.
  rewrite (map_to_list_foldl_insert_entries f items Hnd).
  apply list_elem_of_fmap. by exists item.
Qed.
End dictionaries.

Lemma guard_passed {A} (b : bool) e (x y : A) :
  (if negb b then Raise e else Ok x) = Ok y → b = true ∧ x = y.
Proof. destruct b; [|done]. by intros [= <-]. Qed.

Section guard.
Context (df : DataFrame) (iw : gmap string Qc) (H : number).

(** A normal return of [calculate_indicator_contributions] past the test of
    line 25: the loop has met a column for every weighted label, and the
    check of line 36 has passed on the sum the loop has accumulated. *)
Lemma calculate_indicator_contributions_inv c :
  eq0 H = false →
  MPI_contributions_py.calculate_indicator_contributions df iw H = Ok c →
  c = foldl (λ acc item, <[item.1 := contribution_of H df item]> acc) ∅ (map_to_list iw) ∧
  isclose_number (total (contribution_of H df <$> map_to_list iw))
    (mul H (mean (series (mask df Is_Poor) Deprivation_Score)))
    default_rtol default_atol = true.
Proof.
  intros Heq0. unfold MPI_contributions_py.calculate_indicator_contributions.
  rewrite Heq0.
  destruct (MPI_contributions_py.contributions_loop _ _ _ _ _) as [[c' t]|] eqn:Hloop;
    [|done].
  cbn [mbind result_bind].
  pose proof (contributions_loop_columns _ _ _ _ _ _ Hloop) as Hcols.
  rewrite contributions_loop_Ok in Hloop by done. injection Hloop as <- <-.
  unfold getitem. case_bool_decide; [|done]. cbn [mbind result_bind].
  intros Hc. apply guard_passed in Hc as [Hclose <-]. split; [done|exact Hclose].
Qed.
End guard.

Section guard_after_core.
Context (df : DataFrame) (all_indicators : list string)
        (iw : gmap string Qc) (poverty_threshold : Qc).

Abbreviation scored_of := (core df all_indicators iw poverty_threshold).1.
Abbreviation stats_of' := (core df all_indicators iw poverty_threshold).2.

(** On the scored table and its H, [calculate_indicator_contributions] gets
    through its check only with a headcount ratio that is a number: 0, or
    positive with a poor observation in the table. *)
Lemma indicator_contributions_some_poor c :
  MPI_contributions_py.calculate_indicator_contributions scored_of iw (H stats_of') = Ok c →
  eq0 (H stats_of') = false →
  filter (poor all_indicators iw poverty_threshold) (rows df) ≠ [].
Proof.
  unfold MPI_contributions_py.calculate_indicator_contributions.
  intros Hc Heq0 Hnone. rewrite Heq0 in Hc.
  destruct (MPI_contributions_py.contributions_loop _ _ _ _ _) as [[c' t]|]; [|done].
  cbn [mbind result_bind] in Hc.
  destruct (getitem _ _) as [s|]; [|done]. cbn [mbind result_bind] in Hc.
  destruct (isclose_number _ _ _ _) eqn:Hclose; [|done].
  destruct (rows df) as [|r l] eqn:Hrows.
  - rewrite core_H, Hrows in Hclose. cbn in Hclose. by destruct t.
  - assert (H stats_of' = Num 0) as HH.
    { apply H_zero_iff. split; [by rewrite Hrows|].
      intros row Hrow Hpoor. rewrite <-Hrows in Hnone.
      assert (row ∈ filter (poor all_indicators iw poverty_threshold) (rows df)) as Hin
        by (by apply list_elem_of_filter).
      rewrite Hnone in Hin. by apply not_elem_of_nil in Hin. }
    rewrite HH in Heq0. cbn in Heq0. by rewrite bool_decide_true in Heq0.
Qed.
End guard_after_core.

(** X14: what a normal return of the nested function
    [calculate_indicator_contributions] of [MPI_contributions.py] (lines
    20-39) guarantees, for a table with the column [Is_Poor].  The returned
    dictionary has the keys of the weights.  Either H equals 0 and every
    contribution is 0; or every contribution is H times the weight times the
    mean of the indicator among the observations flagged poor, and the check
    of line 36 has passed: the contributions, summed in the order of the
    loop, are close (np.isclose with its default tolerances) to H times the
    mean score of the observations flagged poor. *)
Theorem contributions_checked_on_return (df : DataFrame) (iw : gmap string Qc)
    (H : number) (c : gmap string number) :
  Is_Poor ∈ columns df →
  MPI_contributions_py.calculate_indicator_contributions df iw H = Ok c →
  (∀ ind, is_Some (c !! ind) ↔ is_Some (iw !! ind)) ∧
  ((eq0 H = true ∧ ∀ ind x, c !! ind = Some x → x = Num 0) ∨
   (eq0 H = false ∧
    (∀ ind w, iw !! ind = Some w →
       c !! ind = Some (mul (mul H (Num w)) (prevalence_among_poor df ind))) ∧
    ∃ items,
      items ≡ₚ map_to_list iw ∧
      isclose_number (total (contribution_of H df <$> items))
        (mul H (mean (series (mask df Is_Poor) Deprivation_Score)))
        default_rtol default_atol = true)).
Proof.
  intros _ Hc. destruct (eq0 H) eqn:Heq0.
  - revert Hc. unfold MPI_contributions_py.calculate_indicator_contributions.
    rewrite Heq0. intros [= <-]. split.
    + intros ind. by rewrite lookup_fmap, fmap_is_Some.
    + left. split; [done|]. intros ind x. rewrite lookup_fmap.
      destruct (iw !! ind); [|done]. by intros [= <-].
  - apply calculate_indicator_contributions_inv in Hc as [-> Hclose]; [|done].
    assert (∀ ind w, iw !! ind = Some w →
              foldl (λ acc item, <[item.1 := contribution_of H df item]> acc)
                (∅ : gmap string number) (map_to_list iw) !! ind
              = Some (mul (mul H (Num w)) (prevalence_among_poor df ind))) as Hentries.
    { intros ind w Hw. apply elem_of_map_to_list in Hw.
      apply (lookup_foldl_insert_item (contribution_of H df) _ (ind, w));
        [apply NoDup_fst_map_to_list|done]. }
    split.
    + intros ind. split.
      * intros [v Hv].
        apply lookup_foldl_insert_entries in Hv as [([i w] & Hitem & <- & _)|Hv]; [|done].
        exists w. by apply elem_of_map_to_list.
      * intros [w Hw]. rewrite (Hentries ind w Hw). by eexists.
    + right. split; [done|]. split; [exact Hentries|].
      exists (map_to_list iw). split; [done|exact Hclose].
Qed.

Lemma contributions_checked_on_return_witness :
  let out := core Sample.table (all_indicators_of Sample.dimensions)
               {["a" := Q2Qc (1 # 2); "b" := Q2Qc (1 # 2)]} Sample.third in
  ∃ c,
    MPI_contributions_py.calculate_indicator_contributions out.1
      {["a" := Q2Qc (1 # 2); "b" := Q2Qc (1 # 2)]} (H out.2) = Ok c ∧
    ∀ ind, is_Some (c !! ind)
           ↔ is_Some (({["a" := Q2Qc (1 # 2); "b" := Q2Qc (1 # 2)]} : gmap string Qc) !! ind).
Proof.
  intros out.
  assert (∃ c, MPI_contributions_py.calculate_indicator_contributions out.1
                 {["a" := Q2Qc (1 # 2); "b" := Q2Qc (1 # 2)]} (H out.2) = Ok c)
    as [c Hc].
  { eexists. vm_compute. reflexivity. }
  exists c. split; [exact Hc|].
  apply (contributions_checked_on_return out.1
           {["a" := Q2Qc (1 # 2); "b" := Q2Qc (1 # 2)]} (H out.2) c); [|exact Hc].
  apply (bool_decide_unpack _). vm_compute. reflexivity.
Defined.

(** X15: the analysis functions of the two files agree on what
    [calculate_mpi] of [MPI.py] returns.  Applied to the returned table and
    the listed indicators, the nested function
    [calculate_deprivation_proportions] of [MPI_contributions.py] gives a
    dictionary that holds exactly the pairs of the returned deprivation
    analysis.  Applied to the returned table, the resolved weights and the
    returned H, the nested function [calculate_indicator_contributions],
    whenever it returns, gives a dictionary that holds exactly the
    indicators and contributions of the rows of the returned contribution
    analysis. *)
Theorem analysis_functions_agree path_root fs data_path dimensions domain_weights
    indicator_weights poverty_threshold output_path df dw iw o fs' :
  fs !! data_path = Some df →
  validate df dimensions domain_weights indicator_weights = Ok (dw, iw) →
  calculate_mpi path_root fs data_path dimensions domain_weights indicator_weights
    poverty_threshold output_path = (Ok o, fs') →
  (∀ ind p,
     MPI_contributions_py.calculate_deprivation_proportions (data o)
       (all_indicators_of dimensions) !! ind = Some p
     ↔ (ind, p) ∈ deprivation_analysis o) ∧
  (∀ c,
     MPI_contributions_py.calculate_indicator_contributions (data o) iw (H (stats o))
     = Ok c →
     ∀ ind x, c !! ind = Some x
              ↔ ∃ row, row ∈ contribution_analysis o ∧
                       Indicator row = ind ∧ Contribution row = x).
Proof.
  intros Hfs Hv Hrun.
  apply calculate_mpi_Ok_analysis in Hrun
    as (df' & dw' & iw' & Hfs' & Hv' & Hdata & Hstats & Hd & Hc & _).
  assert (df' = df) as -> by congruence.
  assert (iw' = iw) as -> by congruence.
  split.
  - intros ind p. rewrite Hd.
    unfold MPI_contributions_py.calculate_deprivation_proportions,
      get_deprivation_proportions.
    rewrite lookup_foldl_insert_fun, sort_values_desc_Permutation, list_elem_of_fmap.
    case_decide as Hin.
    + split.
      * intros [= <-]. by exists ind.
      * by intros (? & [= <- ->] & _).
    + split; [done|]. by intros (? & [= <- ->] & ?).
  - intros c Hc2 ind x. rewrite Hc. clear Hc Hd.
    rewrite Hdata, Hstats in *.
    destruct (eq0 (H (core df (all_indicators_of dimensions) iw poverty_threshold).2))
      eqn:Heq0.
    + destruct (H _) as [|h] eqn:HH; [done|]. cbn in Heq0.
      apply bool_decide_eq_true in Heq0 as ->.
      rewrite calculate_indicator_contributions_zero in Hc2. injection Hc2 as <-.
      rewrite lookup_fmap. split.
      * destruct (iw !! ind) as [w|] eqn:Hw; [|done]. intros [= <-].
        eexists. split; [|split].
        -- rewrite sort_values_desc_Permutation. apply list_elem_of_fmap.
           exists (ind, w). split; [done|]. by apply elem_of_map_to_list.
        -- done.
        -- apply contribution_entry_zero.
      * intros (row & Hrow & <- & <-).
        rewrite sort_values_desc_Permutation in Hrow.
        apply list_elem_of_fmap in Hrow as ([i w] & -> & Hitem).
        apply elem_of_map_to_list in Hitem.
        rewrite contribution_entry_zero. cbn [Indicator contribution_entry fst].
        by rewrite Hitem.
    + pose proof (indicator_contributions_some_poor _ _ _ _ _ Hc2 Heq0) as Hsome.
      apply calculate_indicator_contributions_inv in Hc2 as [-> _]; [|done].
      split.
      * intros Hl.
        apply lookup_foldl_insert_entries in Hl as [(item & Hitem & <- & ->)|Hl]; [|done].
        eexists. split; [|split].
        -- rewrite sort_values_desc_Permutation. apply list_elem_of_fmap.
           by exists item.
        -- done.
        -- by apply contribution_entry_some_poor.
      * intros (row & Hrow & <- & <-).
        rewrite sort_values_desc_Permutation in Hrow.
        apply list_elem_of_fmap in Hrow as (item & -> & Hitem).
        rewrite (contribution_entry_some_poor _ _ _ _ Hsome).
        change (Indicator (contribution_entry _ _ _ item)) with item.1.
        apply (lookup_foldl_insert_item
                 (contribution_of
                    (H (core df (all_indicators_of dimensions) iw poverty_threshold).2)
                    (core df (all_indicators_of dimensions) iw poverty_threshold).1));
          [|done].
        apply NoDup_fst_map_to_list.
Qed.

Lemma analysis_functions_agree_witness :
  ∃ o fs' iw c,
    Sample.run = (Ok o, fs') ∧
    MPI_contributions_py.calculate_indicator_contributions (data o) iw (H (stats o))
    = Ok c ∧
    ∀ ind x, c !! ind = Some x
             ↔ ∃ row, row ∈ contribution_analysis o ∧
                      Indicator row = ind ∧ Contribution row = x.
Proof.
  assert (∃ dw iw o c,
            validate Sample.table Sample.dimensions None None = Ok (dw, iw) ∧
            Sample.run = (Ok o, Sample.run.2) ∧
            MPI_contributions_py.calculate_indicator_contributions (data o) iw
              (H (stats o)) = Ok c)
    as (dw & iw & o & c & Hv & Hrun & Hc).
  { eexists _, _, _, _. split; [vm_compute; reflexivity|].
    split; [vm_compute; reflexivity|]. vm_compute. reflexivity. }
  exists o, Sample.run.2, iw, c. split; [exact Hrun|]. split; [exact Hc|].
  exact (proj2 (analysis_functions_agree Sample.path_root Sample.files "data.csv"
                  Sample.dimensions None None Sample.third None Sample.table dw iw
                  o _ eq_refl Hv Hrun) c Hc).
Defined.

Section key_errors.
Context {A B : Type} (f : A → result B).

Lemma mapM_result_first_Raise (l1 : list A) x (l2 : list A) e :
  (∀ y, y ∈ l1 → is_Ok (f y)) → f x = Raise e →
  mapM f (l1 ++ x :: l2) = Raise e.
Proof.
  intros Hl1 Hx. induction l1 as [|y l1 IH].
  - cbn [app mapM]. by rewrite Hx.
  - cbn [app mapM]. destruct (f y) as [b|e'] eqn:Hy.
    + cbn [mbind result_bind]. rewrite IH; [done|].
      intros z Hz. apply Hl1. by right.
    + specialize (Hl1 y). rewrite Hy in Hl1. exfalso. apply Hl1. by left.
Qed.

Lemma first_such (P : A → Prop) `{!∀ a, Decision (P a)} (l : list A) :
  (∃ x, x ∈ l ∧ P x) →
  ∃ l1 x l2, l = l1 ++ x :: l2 ∧ P x ∧ ∀ y, y ∈ l1 → ¬ P y.
Proof.
  induction l as [|a l IH]; intros (x & Hx & HP).
  - by apply not_elem_of_nil in Hx.
  - destruct (decide (P a)) as [Ha|Ha].
    + exists [], a, l. split_and!; [done..|]. by intros y ?%not_elem_of_nil.
    + destruct IH as (l1 & z & l2 & -> & Hz & Hl1).
      { apply elem_of_cons in Hx as [->|Hx]; [done|]. by exists x. }
      exists (a :: l1), z, l2. split_and!; [done..|].
      intros y [->|Hy]%elem_of_cons; [done|]. by apply Hl1.
Qed.
End key_errors.

(** X16: a weight for a label that is no column makes [calculate_mpi] fail
    late.  When validation passes, no indicator is listed twice, the table
    holds a poor observation, and some weighted label is no column of the
    table (and is not one of the two added columns), the function raises the
    KeyError of a weighted label that is neither a column nor listed in
    [dimensions]; by then the scored table has been written. *)
Theorem weight_without_column_KeyError path_root fs data_path df dimensions
    domain_weights indicator_weights poverty_threshold output_path dw iw :
  fs !! data_path = Some df →
  validate df dimensions domain_weights indicator_weights = Ok (dw, iw) →
  NoDup (all_indicators_of dimensions) →
  (∃ row, row ∈ rows df ∧ poor (all_indicators_of dimensions) iw poverty_threshold row) →
  (∃ ind, is_Some (iw !! ind) ∧ (ind ∉ columns df) ∧
          ind ≠ Deprivation_Score ∧ ind ≠ Is_Poor) →
  ∃ k,
    is_Some (iw !! k) ∧ (k ∉ columns df) ∧ (k ∉ all_indicators_of dimensions) ∧
    calculate_mpi path_root fs data_path dimensions domain_weights indicator_weights
      poverty_threshold output_path
    = (Raise (KeyError k),
       <[or_default output_path (path_root data_path +:+ "_scored.csv")
         := (core df (all_indicators_of dimensions) iw poverty_threshold).1]> fs).
Proof.
  intros Hfs Hv Hnodup (row & Hrow & Hpoor) (ind & [w Hw] & Hcol & Hscore & Hflag).
  assert (filter (poor (all_indicators_of dimensions) iw poverty_threshold) (rows df) ≠ [])
    as Hsome.
  { intros Hnil.
    assert (row ∈ filter (poor (all_indicators_of dimensions) iw poverty_threshold)
                    (rows df)) as Hin by (by apply list_elem_of_filter).
    rewrite Hnil in Hin. by apply not_elem_of_nil in Hin. }
  pose proof (some_poor_gt0 _ _ _ _ Hsome) as Hgt.
  set (scored := (core df (all_indicators_of dimensions) iw poverty_threshold).1) in *.
  destruct (first_such (λ item : string * Qc, item.1 ∉ columns scored) (map_to_list iw))
    as (l1 & [k wk] & l2 & Hitems & Hk & Hl1).
  { exists (ind, w). split; [by apply elem_of_map_to_list|]. cbn [fst].
    unfold scored. rewrite core_columns_eq, !elem_of_app.
    intros [[?|Hin]|Hin]; [done| |].
    - case_bool_decide; [by apply not_elem_of_nil in Hin|].
      by apply list_elem_of_singleton in Hin.
    - case_bool_decide; [by apply not_elem_of_nil in Hin|].
      by apply list_elem_of_singleton in Hin. }
  cbn [fst] in Hk.
  assert (∀ x, x ∈ l1 → x.1 ∈ columns scored) as Hl1'.
  { intros x Hx. destruct (decide (x.1 ∈ columns scored)) as [|Hn]; [done|].
    by destruct (Hl1 x Hx). }
  assert (k ∉ columns df) as Hkdf.
  { intros Hin. apply Hk. by apply core_columns. }
  exists k. split; [|split; [done|split]].
  - exists wk. apply elem_of_map_to_list. rewrite Hitems.
    apply elem_of_app. right. by left.
  - intros Hin. apply Hkdf. by eapply validate_columns.
  - unfold calculate_mpi, read_csv.
    rewrite Hfs, Hv, (proj2 (check_scores_one_column_Ok _) Hnodup).
    destruct (core df (all_indicators_of dimensions) iw poverty_threshold)
      as [df' st] eqn:Hcore.
    cbn [fst snd] in *. subst scored.
    unfold get_contribution_analysis. rewrite Hgt, Hitems.
    rewrite (mapM_result_first_Raise _ l1 (k, wk) l2 (KeyError k)); [reflexivity| |].
    + intros [i wi] Hi. unfold getitem.
      rewrite bool_decide_true by (apply (Hl1' (i, wi) Hi)). done.
    + unfold getitem. by rewrite bool_decide_false.
Qed.

Lemma weight_without_column_KeyError_witness :
  ∃ k fs',
    calculate_mpi Sample.path_root Sample_missing_column.files "data.csv"
      Sample_missing_column.dimensions None Sample_missing_column.indicator_weights
      Sample.third None = (Raise (KeyError k), fs').
Proof.
  assert (∃ dw iw,
            validate Sample_missing_column.table Sample_missing_column.dimensions
              None Sample_missing_column.indicator_weights = Ok (dw, iw) ∧
            poor (all_indicators_of Sample_missing_column.dimensions) iw Sample.third
              ({["a" := 1]} : gmap string Qc) ∧
            is_Some (iw !! "c"))
    as (dw & iw & Hv & Hpoor & Hc).
  { eexists _, _. split; [vm_compute; reflexivity|]. split.
    - unfold poor. apply (bool_decide_unpack _). by vm_compute.
    - by eexists. }
  destruct (weight_without_column_KeyError Sample.path_root
              Sample_missing_column.files "data.csv" Sample_missing_column.table
              Sample_missing_column.dimensions None
              Sample_missing_column.indicator_weights Sample.third None dw iw
              eq_refl Hv) as (k & _ & _ & _ & Hrun).
  - apply (bool_decide_unpack _). vm_compute. reflexivity.
  - exists ({["a" := 1]} : gmap string Qc). split; [by left|exact Hpoor].
  - exists "c". split; [exact Hc|].
    split_and!; apply (bool_decide_unpack _); vm_compute; reflexivity.
  - eexists k, _. exact Hrun.
Defined.

Section intensity_bounds.
Context (df : DataFrame) (all_indicators : list string)
        (iw : gmap string Qc) (poverty_threshold : Qc).
Hypothesis some_poor :
  filter (poor all_indicators iw poverty_threshold) (rows df) ≠ [].

Lemma poor_rows_length_pos :
  0 < of_nat (length (filter (poor all_indicators iw poverty_threshold) (rows df))).
Proof.
  apply of_nat_pos.
  destruct (filter (poor all_indicators iw poverty_threshold) (rows df));
    [done|cbn; lia].
Qed.

Lemma mean_poor_score_lower c :
  (∀ r, r ∈ rows df → c ≤ deprivation_score all_indicators iw r) →
  c ≤ sum (deprivation_score all_indicators iw
             <$> filter (poor all_indicators iw poverty_threshold) (rows df))
      / of_nat (length (filter (poor all_indicators iw poverty_threshold) (rows df))).
Proof.
  intros Hc. pose proof poor_rows_length_pos as Hpos.
  set (l := filter _ (rows df)) in *.
  apply (Qcle_trans _ (of_nat (length l) * c / of_nat (length l))).
  - rewrite Qc_mul_div_cancel; [apply Qcle_refl|].
    intros Heq. rewrite Heq in Hpos. by apply Qclt_not_eq in Hpos.
  - apply Qc_div_le_mono; [done|].
    rewrite <-(length_fmap (deprivation_score all_indicators iw) l).
    apply sum_lower_bound.
    intros x (r & -> & Hr)%list_elem_of_fmap.
    apply Hc. by apply list_elem_of_filter in Hr as [_ Hr].
Qed.

Lemma mean_poor_score_upper c :
  (∀ r, r ∈ rows df → deprivation_score all_indicators iw r ≤ c) →
  sum (deprivation_score all_indicators iw
         <$> filter (poor all_indicators iw poverty_threshold) (rows df))
  / of_nat (length (filter (poor all_indicators iw poverty_threshold) (rows df)))
  ≤ c.
Proof.
  intros Hc. pose proof poor_rows_length_pos as Hpos.
  set (l := filter _ (rows df)) in *.
  apply (Qcle_trans _ (of_nat (length l) * c / of_nat (length l))).
  - apply Qc_div_le_mono; [done|].
    rewrite <-(length_fmap (deprivation_score all_indicators iw) l).
    apply sum_upper_bound.
    intros x (r & -> & Hr)%list_elem_of_fmap.
    apply Hc. by apply list_elem_of_filter in Hr as [_ Hr].
  - rewrite Qc_mul_div_cancel; [apply Qcle_refl|].
    intros Heq. rewrite Heq in Hpos. by apply Qclt_not_eq in Hpos.
Qed.
End intensity_bounds.

(** X17: on every normal return for a table with at least one observation,
    H and MPI are numbers; MPI is not negative when no [Deprivation_Score]
    of the returned table is negative, and MPI <= H when no
    [Deprivation_Score] of the returned table exceeds 1. *)
Theorem mpi_at_most_headcount path_root fs data_path dimensions
    domain_weights indicator_weights poverty_threshold output_path o fs' :
  calculate_mpi path_root fs data_path dimensions domain_weights indicator_weights
    poverty_threshold output_path = (Ok o, fs') →
  rows (data o) ≠ [] →
  ∃ h m,
    H (stats o) = Num h ∧ MPI (stats o) = Num m ∧
    ((∀ row : gmap string Qc, row ∈ rows (data o) → 0 ≤ row !!! Deprivation_Score) →
     0 ≤ m) ∧
    ((∀ row : gmap string Qc, row ∈ rows (data o) → row !!! Deprivation_Score ≤ 1) →
     m ≤ h).
Proof.
  intros Hrun Hne.
  apply calculate_mpi_Ok in Hrun as (df & dw & iw & _ & _ & Hdata & -> & _).
  rewrite Hdata, core_rows in *.
  assert (rows df ≠ []) as Hrows by (by intros Hnil; rewrite Hnil in Hne).
  destruct (decide (filter (poor (all_indicators_of dimensions) iw poverty_threshold)
                      (rows df) = [])) as [Hnone|Hsome].
  - assert (H (core df (all_indicators_of dimensions) iw poverty_threshold).2 = Num 0)
      as HH.
    { apply H_zero_iff. split; [done|]. intros row Hrow Hpoor.
      assert (row ∈ filter (poor (all_indicators_of dimensions) iw poverty_threshold)
                      (rows df)) as Hin by (by apply list_elem_of_filter).
      rewrite Hnone in Hin. by apply not_elem_of_nil in Hin. }
    rewrite core_MPI, core_A, HH. cbn [gt0].
    rewrite bool_decide_false by (intros Hlt; by apply Qclt_not_eq in Hlt). cbn [mul].
    eexists _, _. split; [done|]. split; [done|].
    rewrite !Qcmult_0_r. done.
  - rewrite core_MPI, some_poor_A, some_poor_H by done. cbn [mul].
    eexists _, _. split; [done|]. split; [done|].
    pose proof (rows_length_pos df Hrows) as Hn.
    pose proof (poor_rows_length_pos _ _ _ _ Hsome) as Hp.
    assert (0 ≤ of_nat (length (filter (poor (all_indicators_of dimensions) iw
                                          poverty_threshold) (rows df)))
                / of_nat (length (rows df))) as Hh.
    { apply Qc_div_nonneg; [by apply Qclt_le_weak|done]. }
    split.
    + intros Hle. apply Qcmult_nonneg_nonneg; [exact Hh|].
      apply mean_poor_score_lower; [exact Hsome|].
      intros r Hr. rewrite <-(scored_Deprivation_Score _ _ poverty_threshold).
      apply Hle. apply list_elem_of_fmap. by exists r.
    + intros Hle. rewrite <-(Qcmult_1_r (_ / of_nat (length (rows df)))) at 2.
      apply Qcmult_le_mono_nonneg_l; [exact Hh|].
      apply mean_poor_score_upper; [exact Hsome|].
      intros r Hr. rewrite <-(scored_Deprivation_Score _ _ poverty_threshold).
      apply Hle. apply list_elem_of_fmap. by exists r.
Qed.

Lemma mpi_at_most_headcount_witness :
  ∃ o fs',
    Sample.run = (Ok o, fs') ∧
    ∃ h m, H (stats o) = Num h ∧ MPI (stats o) = Num m ∧ 0 ≤ m ∧ m ≤ h.
Proof.
  assert (∃ o, Sample.run = (Ok o, Sample.run.2) ∧
               (0 < length (rows (data o)))%nat ∧
               Forall (λ row : gmap string Qc,
                         0 ≤ row !!! Deprivation_Score ∧ row !!! Deprivation_Score ≤ 1)
                 (rows (data o)))
    as (o & Hrun & Hlen & Hscores).
  { eexists. split; [vm_compute; reflexivity|]. split.
    - apply Nat.ltb_lt. vm_compute. reflexivity.
    - apply (bool_decide_unpack _). vm_compute. reflexivity. }
  exists o, Sample.run.2. split; [exact Hrun|].
  destruct (mpi_at_most_headcount Sample.path_root Sample.files
              "data.csv" Sample.dimensions None None Sample.third None o _ Hrun)
    as (h & m & HH & HM & Hlow & Hup).
  - intros Hnil. rewrite Hnil in Hlen. cbn in Hlen. lia.
  - exists h, m. split; [exact HH|]. split; [exact HM|]. split.
    + apply Hlow. intros row Hrow.
      exact (proj1 (proj1 (list.Forall_forall
                             (λ row : gmap string Qc,
                                0 ≤ row !!! Deprivation_Score
                                ∧ row !!! Deprivation_Score ≤ 1)
                             (rows (data o))) Hscores row Hrow)).
    + apply Hup. intros row Hrow.
      exact (proj2 (proj1 (list.Forall_forall
                             (λ row : gmap string Qc,
                                0 ≤ row !!! Deprivation_Score
                                ∧ row !!! Deprivation_Score ≤ 1)
                             (rows (data o))) Hscores row Hrow)).
Defined.

(** X18: an observation that is at least as deprived in every listed
    indicator as another one has at least its score, and is flagged poor
    when the other one is, as soon as no resolved weight of a listed
    indicator is negative. *)
Theorem more_deprived_not_less_poor path_root fs data_path dimensions domain_weights
    indicator_weights poverty_threshold output_path df dw iw o fs'
    (i j : nat) (r1 r2 : gmap string Qc) :
  fs !! data_path = Some df →
  validate df dimensions domain_weights indicator_weights = Ok (dw, iw) →
  calculate_mpi path_root fs data_path dimensions domain_weights indicator_weights
    poverty_threshold output_path = (Ok o, fs') →
  (∀ ind, ind ∈ all_indicators_of dimensions → 0 ≤ iw !!! ind) →
  rows df !! i = Some r1 →
  rows df !! j = Some r2 →
  (∀ ind, ind ∈ all_indicators_of dimensions → r1 !!! ind ≤ r2 !!! ind) →
  ∃ r1' r2' : gmap string Qc,
    rows (data o) !! i = Some r1' ∧ rows (data o) !! j = Some r2' ∧
    r1' !!! Deprivation_Score ≤ r2' !!! Deprivation_Score ∧
    (r1' !!! Is_Poor = 1 → r2' !!! Is_Poor = 1).
Proof.
  intros Hfs Hv Hrun Hw Hi Hj Hle.
  apply calculate_mpi_Ok in Hrun as (df' & dw' & iw' & Hfs' & Hv' & Hdata & _).
  assert (df' = df) as -> by congruence.
  assert (iw' = iw) as -> by congruence.
  rewrite Hdata, core_rows, !list_lookup_fmap, Hi, Hj. cbn [fmap option_fmap option_map].
  eexists _, _. split; [done|]. split; [done|].
  rewrite !scored_Deprivation_Score, !scored_Is_Poor.
  assert (deprivation_score (all_indicators_of dimensions) iw r1
          ≤ deprivation_score (all_indicators_of dimensions) iw r2) as Hscore.
  { unfold deprivation_score. apply sum_fmap_le. intros ind Hind.
    apply Qcmult_le_mono_nonneg_r; [by apply Hw|by apply Hle]. }
  split; [done|].
  case_bool_decide as Hp1; [|intros Heq; by apply (f_equal (λ x : Qc, this x)) in Heq].
  intros _. rewrite bool_decide_true; [done|].
  unfold poor in *. by etrans.
Qed.

Lemma more_deprived_not_less_poor_witness :
  ∃ o fs' (r1' r2' : gmap string Qc),
    Sample.run = (Ok o, fs') ∧
    rows (data o) !! 2%nat = Some r1' ∧ rows (data o) !! 0%nat = Some r2' ∧
    r1' !!! Deprivation_Score ≤ r2' !!! Deprivation_Score.
Proof.
  assert (∃ dw iw,
            validate Sample.table Sample.dimensions None None = Ok (dw, iw) ∧
            Forall (λ ind, 0 ≤ iw !!! ind) (all_indicators_of Sample.dimensions))
    as (dw & iw & Hv & Hw).
  { eexists _, _. split; [vm_compute; reflexivity|].
    apply (bool_decide_unpack _). vm_compute. reflexivity. }
  assert (∃ o, Sample.run = (Ok o, Sample.run.2)) as [o Hrun].
  { eexists. vm_compute. reflexivity. }
  destruct (more_deprived_not_less_poor Sample.path_root Sample.files "data.csv"
              Sample.dimensions None None Sample.third None Sample.table dw iw o _
              2%nat 0%nat (Sample.row 1 0) (Sample.row 1 1) eq_refl Hv Hrun)
    as (r1' & r2' & H1 & H2 & Hle & _).
  - intros ind Hind.
    exact (proj1 (list.Forall_forall (λ ind, 0 ≤ iw !!! ind)
                    (all_indicators_of Sample.dimensions)) Hw ind Hind).
  - reflexivity.
  - reflexivity.
  - intros ind Hind. apply (bool_decide_unpack _).
    destruct (decide (ind = "a")) as [->|Ha]; [by vm_compute|].
    destruct (decide (ind = "b")) as [->|Hb]; [by vm_compute|].
    unfold Sample.row. rewrite !lookup_total_insert_ne by done.
    by vm_compute.
  - exists o, Sample.run.2, r1', r2'. by split_and!.
Defined.

(** X20: what a row of the contribution analysis holds.  On every normal
    return, each row carries an indicator with its resolved weight; its
    prevalence is the mean of the indicator among the observations of the
    returned table that are flagged poor when H is greater than 0, and 0
    otherwise; and its contribution is H times the weight times that
    prevalence. *)
Theorem contribution_is_H_weight_prevalence path_root fs data_path dimensions
    domain_weights indicator_weights poverty_threshold output_path o fs' :
  calculate_mpi path_root fs data_path dimensions domain_weights indicator_weights
    poverty_threshold output_path = (Ok o, fs') →
  ∀ row, row ∈ contribution_analysis o →
    (Indicator row, Weight row) ∈ weights o ∧
    Prevalence_Among_Poor row
    = (if gt0 (H (stats o)) then prevalence_among_poor (data o) (Indicator row)
       else Num 0) ∧
    Contribution row
    = mul (mul (H (stats o)) (Num (Weight row))) (Prevalence_Among_Poor row).
Proof.
  intros Hrun row Hrow.
  apply calculate_mpi_Ok_analysis in Hrun
    as (df & dw & iw & _ & _ & _ & _ & _ & Hc & Hw).
  rewrite Hc, sort_values_desc_Permutation in Hrow.
  apply list_elem_of_fmap in Hrow as ([ind w] & -> & Hitem).
  rewrite Hw. split; [exact Hitem|]. split; reflexivity.
Qed.

Lemma contribution_is_H_weight_prevalence_witness :
  ∃ o fs',
    Sample.run = (Ok o, fs') ∧
    gt0 (H (stats o)) = true ∧
    contribution_analysis o ≠ [] ∧
    ∀ row, row ∈ contribution_analysis o →
      Contribution row
      = mul (mul (H (stats o)) (Num (Weight row)))
            (prevalence_among_poor (data o) (Indicator row)).
Proof.
  assert (∃ o, Sample.run = (Ok o, Sample.run.2) ∧
               gt0 (H (stats o)) = true ∧
               (0 < length (contribution_analysis o))%nat)
    as (o & Hrun & Hgt & Hlen).
  { eexists. split; [vm_compute; reflexivity|]. split.
    - vm_compute. reflexivity.
    - apply Nat.ltb_lt. vm_compute. reflexivity. }
  exists o, Sample.run.2. split; [exact Hrun|]. split; [exact Hgt|]. split.
  - intros Hnil. rewrite Hnil in Hlen. cbn in Hlen. lia.
  - intros row Hrow.
    destruct (contribution_is_H_weight_prevalence Sample.path_root Sample.files
                "data.csv" Sample.dimensions None None Sample.third None o _ Hrun
                row Hrow) as (_ & Hp & Hc).
    rewrite Hgt in Hp. rewrite Hc, Hp. reflexivity.
Defined.

(** X21: a table without a poor observation.  When validation passes, no
    indicator is listed twice, some indicator is weighted, and the table has
    observations of which none reaches the threshold, [calculate_mpi]
    returns, with H = 0, A = 0 and MPI = 0 and, in every row of the
    contribution analysis, the contribution 0, the prevalence 0 and the
    percentage 0: no mean is taken over the empty set of poor
    observations. *)
Theorem no_poor_observation path_root fs data_path df dimensions domain_weights
    indicator_weights poverty_threshold output_path dw iw :
  fs !! data_path = Some df →
  validate df dimensions domain_weights indicator_weights = Ok (dw, iw) →
  NoDup (all_indicators_of dimensions) →
  iw ≠ ∅ →
  rows df ≠ [] →
  (∀ row, row ∈ rows df →
          ¬ poor (all_indicators_of dimensions) iw poverty_threshold row) →
  ∃ o fs',
    calculate_mpi path_root fs data_path dimensions domain_weights indicator_weights
      poverty_threshold output_path = (Ok o, fs') ∧
    H (stats o) = Num 0 ∧ A (stats o) = Num 0 ∧ MPI (stats o) = Num 0 ∧
    (∀ ind, is_Some (iw !! ind) →
            ∃ row, row ∈ contribution_analysis o ∧ Indicator row = ind) ∧
    ∀ row, row ∈ contribution_analysis o →
      Contribution row = Num 0 ∧ Prevalence_Among_Poor row = Num 0 ∧
      Contribution_Pct row = Num 0.
Proof.
  intros Hfs Hv Hnodup Hne Hrows Hnone.
  assert (H (core df (all_indicators_of dimensions) iw poverty_threshold).2 = Num 0)
    as HH by (by apply H_zero_iff).
  pose proof (H_zero_A _ _ _ _ HH) as HA.
  pose proof (H_zero_MPI _ _ _ _ HH) as HM.
  pose proof (calculate_mpi_validated path_root fs data_path dimensions domain_weights
                indicator_weights poverty_threshold output_path df dw iw Hfs Hv Hnodup)
    as Hrun.
  cbv zeta in Hrun.
  rewrite get_contribution_analysis_Ok in Hrun; [|done|].
  2:{ rewrite HH. intros Hgt. by vm_compute in Hgt. }
  eexists _, _. split; [exact Hrun|]. cbn [stats contribution_analysis].
  split; [exact HH|]. split; [exact HA|]. split; [exact HM|]. split.
  - intros ind [w Hw]. eexists. split.
    + rewrite sort_values_desc_Permutation. apply list_elem_of_fmap.
      exists (ind, w). split; [done|]. by apply elem_of_map_to_list.
    + done.
  - intros row Hrow. rewrite sort_values_desc_Permutation in Hrow.
    apply list_elem_of_fmap in Hrow as (item & -> & _).
    rewrite HH, HM. split; [apply contribution_entry_zero|]. split; reflexivity.
Qed.

Lemma no_poor_observation_witness :
  ∃ o fs',
    calculate_mpi Sample.path_root Sample_none_poor.files "data.csv" Sample.dimensions
      None None Sample.third None = (Ok o, fs') ∧
    H (stats o) = Num 0 ∧ A (stats o) = Num 0 ∧ MPI (stats o) = Num 0.
Proof.
  assert (∃ dw iw,
            validate Sample_none_poor.table Sample.dimensions None None = Ok (dw, iw) ∧
            is_Some (iw !! "a") ∧
            filter (poor (all_indicators_of Sample.dimensions) iw Sample.third)
              (rows Sample_none_poor.table) = [])
    as (dw & iw & Hv & Ha & Hnone).
  { eexists _, _. split; [vm_compute; reflexivity|]. split; [by eexists|].
    vm_compute. reflexivity. }
  destruct (no_poor_observation Sample.path_root Sample_none_poor.files "data.csv"
              Sample_none_poor.table Sample.dimensions None None Sample.third None
              dw iw eq_refl Hv)
    as (o & fs' & Hrun & HH & HA & HM & _).
  - apply (bool_decide_unpack _). vm_compute. reflexivity.
  - intros Hnil. rewrite Hnil in Ha. destruct Ha as [w Hw].
    rewrite lookup_empty in Hw. discriminate Hw.
  - apply (bool_decide_unpack _). vm_compute. reflexivity.
  - intros row Hrow Hpoor.
    assert (row ∈ filter (poor (all_indicators_of Sample.dimensions) iw Sample.third)
                    (rows Sample_none_poor.table)) as Hin.
    { apply list_elem_of_filter. split; [exact Hpoor|exact Hrow]. }
    rewrite Hnone in Hin. exact (proj1 (elem_of_nil row) Hin).
  - exists o, fs'. split; [exact Hrun|]. split; [exact HH|]. split; [exact HA|exact HM].
Defined.
